(** * A shallow embedding of the dashboard script [app.py]

    The script loads a worksheet through gspread, turns it into a pandas
    [DataFrame], converts the column types on a best-effort basis, memoises
    the result with streamlit's [st.cache_data(ttl=300)] and renders it.

    The file follows the script: Python built-ins first, then the parts of
    pandas, gspread and streamlit that the script calls, then the script's
    own functions ([connect_to_gsheet], [load_data], the top-level code as
    [main]), and finally the properties.

    What the script takes from its libraries without looking inside is a
    parameter of the development, gathered in the class [Library]: the
    parsers of pandas for numbers and dates, its printers of floats and
    time stamps, one version-dependent choice of Python's [csv] writer, and
    whether the drawing code of the charts and analytics tabs raises.
    Everything is proved for every instance, and the examples use small
    reference instances. *)

From Stdlib Require Import ZArith String Ascii List Bool Floats Lia.
From Stdlib Require Import Decimal DecimalString DecimalZ DecimalPos.
From stdpp Require Import base tactics option list gmap strings pretty.

Local Open Scope string_scope.
Local Open Scope Z_scope.
Local Open Scope list_scope.

(** ** Python built-ins used by the script *)

Module Py.

(** [str.lower] on the code units of a UTF-8 string: the ASCII capitals
    are mapped to their small letters and every other byte is kept.  This is
    all the script needs, since the result is only searched for "tanggal"
    and "date": the bytes of a multi-byte character are above 127, and no
    non-ASCII character has one of the letters of these two words in its
    lower-case form. *)
Definition lower_ascii (c : ascii) : ascii :=
  let n := nat_of_ascii c in
  if (65 <=? n)%nat && (n <=? 90)%nat then ascii_of_nat (n + 32) else c.

Fixpoint lower (s : string) : string :=
  match s with
  | EmptyString => EmptyString
  | String c s' => String (lower_ascii c) (lower s')
  end.

(** [needle in hay] for two strings. *)
Fixpoint str_in (needle hay : string) : bool :=
  String.prefix needle hay ||
  match hay with
  | EmptyString => false
  | String _ hay' => str_in needle hay'
  end.

(** [range(start, stop, step)], with CPython's length formula.  A zero
    step raises [ValueError] in Python; the script only uses the literal
    step [-1], and the model yields the empty range there. *)
Definition range_len (start stop step : Z) : Z :=
  if 0 <? step then
    if start <? stop then (stop - start - 1) / step + 1 else 0
  else if step <? 0 then
    if stop <? start then (start - stop - 1) / (- step) + 1 else 0
  else 0.

Definition range (start stop step : Z) : list Z :=
  List.map (fun i => start + Z.of_nat i * step)
           (List.seq 0 (Z.to_nat (range_len start stop step))).

(** [divmod(a, b)]: floor division and the matching remainder. *)
Definition divmod (a b : Z) : Z * Z := (a / b, a mod b).

(** [str(n)] for an integer: its decimal digits, a minus sign before them
    when it is negative. *)
Definition str_int (n : Z) : string := NilZero.string_of_int (Z.to_int n).

(** [format(n, "02d")]: at least two characters, zero-padded after the
    sign. *)
Definition zfill (width : nat) (digits : string) : string :=
  String.concat "" (List.repeat "0" (width - String.length digits)) +:+ digits.

Definition format_02d (n : Z) : string :=
  if n <? 0 then "-" +:+ zfill 1 (pretty (Z.abs n)) else zfill 2 (pretty n).

(** A Python call either returns or raises; the exception is kept as the
    text [str(e)] that the handlers of the script print. *)
Inductive result (A : Type) : Type :=
| Ok (a : A)
| Raise (e : string).
Global Arguments Ok {A} a.
Global Arguments Raise {A} e.

Definition bind {A B} (r : result A) (k : A -> result B) : result B :=
  match r with
  | Ok a => k a
  | Raise e => Raise e
  end.

(** A [dict] with string keys, in insertion order. *)
Definition dict (V : Type) : Type := list (string * V).

Fixpoint dict_get {V} (d : dict V) (k : string) : option V :=
  match d with
  | [] => None
  | (k', v) :: d' => if String.eqb k' k then Some v else dict_get d' k
  end.

Definition dict_keys {V} (d : dict V) : list string := List.map fst d.

End Py.

Notation "x <-? r ; k" := (Py.bind r (fun x => k))
(at level 100, r at next level, right associativity, only parsing).

(** ** The delimited-text format of [to_csv]

    pandas writes through Python's [csv] writer with the default dialect:
    comma, double quote, minimal quoting, doubled quotes inside a quoted
    field, and a line feed after each row (the line separator of the
    platforms streamlit apps are served from).  A field is quoted when it
    holds the delimiter, the quote character or a character of the line
    terminator; newer versions of CPython also quote a carriage return,
    older ones leave it bare, which is why the writer takes [quote_cr].
    The reader is the state machine of Python's [csv.reader], which
    [pd.read_csv] follows: a record ends at a line feed, at a carriage
    return, or at the two in a row. *)

Module Csv.

Definition delimiter : ascii := Eval cbv in ascii_of_nat 44.
Definition quotechar : ascii := Eval cbv in ascii_of_nat 34.
Definition LF : ascii := Eval cbv in ascii_of_nat 10.
Definition CR : ascii := Eval cbv in ascii_of_nat 13.

Definition str1 (c : ascii) : string := String c EmptyString.

Section Writer.
Variable quote_cr : bool.

(** A character that forces the writer to quote the field. *)
Definition special (c : ascii) : bool :=
  Ascii.eqb c delimiter || Ascii.eqb c quotechar ||
  Ascii.eqb c LF || (quote_cr && Ascii.eqb c CR).

Fixpoint needs_quote (f : string) : bool :=
  match f with
  | EmptyString => false
  | String c f' => special c || needs_quote f'
  end.

Fixpoint escape (f : string) : string :=
  match f with
  | EmptyString => EmptyString
  | String c f' =>
      if Ascii.eqb c quotechar
      then String quotechar (String quotechar (escape f'))
      else String c (escape f')
  end.

Definition write_field (f : string) : string :=
  if needs_quote f
  then String quotechar (escape f +:+ str1 quotechar)
  else f.

Fixpoint join (sep : ascii) (fields : list string) : string :=
  match fields with
  | [] => EmptyString
  | [f] => f
  | f :: fields' => f +:+ String sep (join sep fields')
  end.

(** [writer.writerow]: a record of one empty field is written as a pair of
    quotes, so that it is not taken for a blank line. *)
Definition write_row (fields : list string) : string :=
  let line := join delimiter (List.map write_field fields) in
  (if (0 <? length fields)%nat && String.eqb line EmptyString
   then String quotechar (str1 quotechar)
   else line) +:+ str1 LF.

Fixpoint write_rows (rows : list (list string)) : string :=
  match rows with
  | [] => EmptyString
  | r :: rows' => write_row r +:+ write_rows rows'
  end.

End Writer.

(** The reader. *)
Inductive mode : Type :=
| StartField      (* at the start of a record or just after a delimiter *)
| AfterCR         (* a carriage return has just ended a record *)
| InField
| InQuoted
| QuoteInQuoted.  (* a quote seen inside a quoted field *)

Record state : Type := mkState {
  st_mode : mode;
  st_field : string;              (* the field being read *)
  st_fields : list string;        (* the fields of the record, last first *)
  st_rows : list (list string)    (* the finished records, last first *)
}.

Definition snoc (s : string) (c : ascii) : string := s +:+ str1 c.

(** The record ends: a line with nothing on it is a record of no field. *)
Definition close_record (in_field : bool) (cur : string) (fs : list string)
  (rs : list (list string)) : list (list string) :=
  match in_field, fs with
  | false, [] => [] :: rs
  | _, _ => List.rev (cur :: fs) :: rs
  end.

Definition step_start (fs : list string) (rs : list (list string))
  (c : ascii) : state :=
  if Ascii.eqb c LF then mkState StartField "" [] (close_record false "" fs rs)
  else if Ascii.eqb c CR then mkState AfterCR "" [] (close_record false "" fs rs)
  else if Ascii.eqb c quotechar then mkState InQuoted "" fs rs
  else if Ascii.eqb c delimiter then mkState StartField "" ("" :: fs) rs
  else mkState InField (str1 c) fs rs.

Definition step (st : state) (c : ascii) : state :=
  let cur := st_field st in
  let fs := st_fields st in
  let rs := st_rows st in
  match st_mode st with
  | StartField => step_start fs rs c
  | AfterCR =>
      if Ascii.eqb c LF then mkState StartField "" [] rs
      else step_start [] rs c
  | InField =>
      if Ascii.eqb c LF then mkState StartField "" [] (close_record true cur fs rs)
      else if Ascii.eqb c CR then mkState AfterCR "" [] (close_record true cur fs rs)
      else if Ascii.eqb c delimiter then mkState StartField "" (cur :: fs) rs
      else mkState InField (snoc cur c) fs rs
  | InQuoted =>
      if Ascii.eqb c quotechar then mkState QuoteInQuoted cur fs rs
      else mkState InQuoted (snoc cur c) fs rs
  | QuoteInQuoted =>
      if Ascii.eqb c quotechar then mkState InQuoted (snoc cur quotechar) fs rs
      else if Ascii.eqb c LF then mkState StartField "" [] (close_record true cur fs rs)
      else if Ascii.eqb c CR then mkState AfterCR "" [] (close_record true cur fs rs)
      else if Ascii.eqb c delimiter then mkState StartField "" (cur :: fs) rs
      else mkState InField (snoc cur c) fs rs
  end.





End Csv.

(** ** pandas: series, frames and the two converters *)

Module Pandas.

(** What a cell of the worksheet is once gspread has read it: gspread turns
    a cell into an [int] or a [float] when Python can, and keeps the text
    otherwise.  A Python [int] has no bound. *)
Inductive pyobj : Type :=
| PInt (z : Z)
| PFloat (f : float)
| PStr (s : string).

(** A record of [get_all_records]: column name to cell. *)
Definition record : Type := Py.dict pyobj.

Inductive dtype : Type := int64 | float64 | object | datetime64.

Definition dtype_eqb (a b : dtype) : bool :=
  match a, b with
  | int64, int64 | float64, float64 | object, object
  | datetime64, datetime64 => true
  | _, _ => false
  end.

(** A column with its typed storage.  A [datetime64[ns]] column holds
    nanoseconds since the epoch, with the time zone of the column when it
    has one ([datetime64[ns, tz]], the offset in seconds).  The last kind
    is what [pd.to_datetime] gives for texts with different UTC offsets: a
    column of dtype [object] whose cells are [Timestamp]s, each with its
    own offset. *)
Inductive Series : Type :=
| SInt64 (xs : list Z)
| SFloat64 (xs : list float)
| SObject (xs : list pyobj)
| SDatetime64 (tz : option Z) (xs : list Z)
| STimestamps (xs : list (Z * Z)).

Definition Series_dtype (s : Series) : dtype :=
  match s with
  | SInt64 _ => int64
  | SFloat64 _ => float64
  | SObject _ => object
  | SDatetime64 _ _ => datetime64
  | STimestamps _ => object
  end.

Definition Series_len (s : Series) : nat :=
  match s with
  | SInt64 xs => length xs
  | SFloat64 xs => length xs
  | SObject xs => length xs
  | SDatetime64 _ xs => length xs
  | STimestamps xs => length xs
  end.

(** [select_dtypes(include=['number'])] keeps these. *)
Definition is_numeric_dtype (d : dtype) : bool :=
  match d with
  | int64 | float64 => true
  | object | datetime64 => false
  end.

(** A frame: a [RangeIndex] of [index] rows and the columns in order. *)
Record DataFrame : Type := mkDataFrame {
  index : nat;
  data : list (string * Series)
}.

Definition columns (df : DataFrame) : list string := List.map fst (data df).

(** [df.empty]: no rows or no columns. *)
Definition empty (df : DataFrame) : bool :=
  (index df =? 0)%nat || (length (data df) =? 0)%nat.

(** [df[col]]; a missing label raises [KeyError]. *)
Definition getitem (df : DataFrame) (col : string) : Py.result Series :=
  match Py.dict_get (data df) col with
  | Some s => Py.Ok s
  | None => Py.Raise col
  end.

(** [df[col] = s] for a label that is already a column: the column is
    replaced in place, the labels and their order stay. *)
Fixpoint setcol (cols : list (string * Series)) (col : string) (s : Series)
  : list (string * Series) :=
  match cols with
  | [] => []
  | (c, s0) :: cols' =>
      (c, if String.eqb c col then s else s0) :: setcol cols' col s
  end.

Definition setitem (df : DataFrame) (col : string) (s : Series) : DataFrame :=
  mkDataFrame (index df) (setcol (data df) col s).

(** *** Building a frame from records: [pd.DataFrame(data)] *)

(** The int to float cast of numpy: round to nearest even. *)
Definition float_of_Z (z : Z) : float :=
  SF2Prim (binary_normalize prec emax z 0 false).

Definition NaN : float := PrimFloat.nan.

(** The labels, in order of first appearance over the records. *)
Definition add_keys (seen : list string) (r : record) : list string :=
  List.fold_left
    (fun acc k => if existsb (String.eqb k) acc then acc else acc ++ [k])
    (Py.dict_keys r) seen.

Definition union_keys (rs : list record) : list string :=
  List.fold_left add_keys rs [].

(** The integers of an [int64] column. *)
Definition fits_int64 (z : Z) : bool := (- 2 ^ 63 <=? z) && (z <? 2 ^ 63).

Definition as_int (o : option pyobj) : option Z :=
  match o with
  | Some (PInt z) => if fits_int64 z then Some z else None
  | _ => None
  end.

(** A missing cell is NaN. *)
Definition as_float (o : option pyobj) : option float :=
  match o with
  | Some (PInt z) => if fits_int64 z then Some (float_of_Z z) else None
  | Some (PFloat f) => Some f
  | Some (PStr _) => None
  | None => Some NaN
  end.

Definition as_object (o : option pyobj) : pyobj :=
  match o with
  | Some v => v
  | None => PFloat NaN
  end.

(** Type inference of one column: integers that all fit 64 bits give
    [int64], such integers, floats and holes give [float64], anything else
    (a text, an integer beyond 64 bits) stays a column of Python
    objects. *)
Definition infer_objects (cells : list (option pyobj)) : Series :=
  match cells with
  | [] => SObject []
  | _ =>
      match mapM as_int cells with
      | Some zs => SInt64 zs
      | None =>
          match mapM as_float cells with
          | Some fs => SFloat64 fs
          | None => SObject (List.map as_object cells)
          end
      end
  end.

Definition column_of (rs : list record) (col : string) : Series :=
  infer_objects (List.map (fun r => Py.dict_get r col) rs).

Definition DataFrame_of_records (rs : list record) : DataFrame :=
  mkDataFrame (length rs)
              (List.map (fun col => (col, column_of rs col)) (union_keys rs)).

(** *** What is taken from the libraries *)

Inductive number : Type :=
| NInt (z : Z)
| NFloat (f : float).

(** What [pd.to_datetime] makes of the cells of an [object] column when it
    accepts them: time stamps of one time zone or of none, or time stamps
    with offsets of their own. *)
Inductive stamps : Type :=
| Stamps (tz : option Z) (ts : list Z)
| MixedOffsets (ts : list (Z * Z)).

Definition stamps_len (p : stamps) : nat :=
  match p with
  | Stamps _ ts => length ts
  | MixedOffsets ts => length ts
  end.

(** What the script takes from pandas, Python and plotly without looking
    inside.
    - [str_to_number]: how [pd.to_numeric] reads a text ([None]: not a
      number).
    - [objects_to_datetime]: what [pd.to_datetime] makes of the cells of
      an [object] column as a whole ([None]: it raises); pandas decides on
      the column, by one format guessed for all its texts, and not cell
      by cell.  It returns one stamp per cell.
    - [float_to_datetime]: a float as nanoseconds since the epoch
      ([None]: out of bounds).
    - [float_repr], [datetimes_repr], [timestamp_repr]: how [to_csv]
      prints a float, the cells of a datetime column (one format for the
      whole column) and a [Timestamp] object.
    - [csv_quotes_CR]: whether the [csv] writer of the interpreter quotes
      a carriage return.
    - [charts_and_analytics]: whether lines 137-230, which draw the charts
      and analytics tabs with plotly for the values their select boxes
      have, raise for a frame. *)
Class Library : Type := {
  str_to_number : string -> option number;
  objects_to_datetime : list pyobj -> option stamps;
  objects_to_datetime_len :
    forall xs p, objects_to_datetime xs = Some p -> stamps_len p = length xs;
  float_to_datetime : float -> option Z;
  float_repr : float -> string;
  datetimes_repr : option Z -> list Z -> list string;
  datetimes_repr_len :
    forall tz ts, length (datetimes_repr tz ts) = length ts;
  timestamp_repr : Z * Z -> string;
  csv_quotes_CR : bool;
  charts_and_analytics : DataFrame -> Py.result unit
}.

Section Converters.
Context `{P : Library}.

Definition number_of (v : pyobj) : option number :=
  match v with
  | PInt z => Some (NInt z)
  | PFloat f => Some (NFloat f)
  | PStr s => str_to_number s
  end.

Definition number_int (n : number) : option Z :=
  match n with
  | NInt z => if fits_int64 z then Some z else None
  | NFloat _ => None
  end.

Definition number_float (n : number) : float :=
  match n with
  | NInt z => float_of_Z z
  | NFloat f => f
  end.

(** The result of a successful conversion: [int64] when every value is an
    integer that fits, [float64] otherwise. *)
Definition pack_numbers (ns : list number) : Series :=
  match mapM number_int ns with
  | Some zs => SInt64 zs
  | None => SFloat64 (List.map number_float ns)
  end.

(** [pd.to_numeric(s, errors='ignore')]: every value is parsed; if one of
    them fails, the argument is returned as it is.  A numeric column is
    returned as it is, a datetime column is viewed as its integers and a
    column of [Timestamp] objects is not numeric (the script only calls it
    on the [object] columns built from records). *)
Definition to_numeric (s : Series) : Series :=
  match s with
  | SObject xs =>
      match mapM number_of xs with
      | Some ns => pack_numbers ns
      | None => s
      end
  | SDatetime64 _ xs => SInt64 xs
  | SInt64 _ | SFloat64 _ | STimestamps _ => s
  end.

(** [pd.to_datetime(s, errors='ignore')]: integers are nanoseconds since
    the epoch, floats go through their parser one by one, the cells of an
    [object] column are handed to pandas as a whole; when the conversion
    raises, the argument is returned as it is. *)
Definition to_datetime (s : Series) : Series :=
  match s with
  | SInt64 xs => SDatetime64 None xs
  | SFloat64 xs =>
      match mapM float_to_datetime xs with
      | Some ts => SDatetime64 None ts
      | None => s
      end
  | SObject xs =>
      match objects_to_datetime xs with
      | Some (Stamps tz ts) => SDatetime64 tz ts
      | Some (MixedOffsets ts) => STimestamps ts
      | None => s
      end
  | SDatetime64 _ _ | STimestamps _ => s
  end.

(** *** [df.to_csv(index=False)] *)

Definition obj_str (v : pyobj) : string :=
  match v with
  | PInt z => Py.str_int z
  | PFloat f => float_repr f
  | PStr s => s
  end.

(** The cells of a column as [to_csv] prints them. *)
Definition Series_str (s : Series) : list string :=
  match s with
  | SInt64 xs => List.map Py.str_int xs
  | SFloat64 xs => List.map float_repr xs
  | SObject xs => List.map obj_str xs
  | SDatetime64 tz xs => datetimes_repr tz xs
  | STimestamps xs => List.map timestamp_repr xs
  end.

Definition row_str (df : DataFrame) (i : nat) : list string :=
  List.map (fun cs => nth i (Series_str (snd cs)) "") (data df).

Definition rows_str (df : DataFrame) : list (list string) :=
  List.map (row_str df) (List.seq 0 (index df)).

(** The header row, then one row per record. *)
Definition to_csv (df : DataFrame) : string :=
  Csv.write_rows csv_quotes_CR (columns df :: rows_str df).

End Converters.

End Pandas.

(** ** gspread: the client objects the script talks to *)

Module Gspread.

(** Each call can raise ([SpreadsheetNotFound], [WorksheetNotFound],
    [APIError] for a missing permission, a transport error, ...). *)
Record Worksheet : Type := mkWorksheet {
  get_all_records : Py.result (list Pandas.record)
}.

Record Spreadsheet : Type := mkSpreadsheet {
  worksheet : string -> Py.result Worksheet
}.

Record Client : Type := mkClient {
  open_by_url : string -> Py.result Spreadsheet
}.

End Gspread.

(** ** streamlit: what a run shows, the two caches, the script monad *)

Module Streamlit.

(** What a run of the script does that can be seen from outside, in
    order.  The texts are those of the script.  The charts and the
    analytics tab are one event each when their code (lines 137-230) runs
    to its end; when it raises, [st_interrupted] stands for what it had
    drawn by then, and [st_exception] is the box streamlit shows for an
    exception that the script does not catch. *)
Inductive event : Type :=
| st_title (body : string)
| st_markdown (body : string)
| st_header (body : string)
| st_subheader (body : string)
| st_expander (label : string)
| st_tabs (labels : list string)
| st_error (body : string)
| st_warning (body : string)
| st_success (body : string)
| st_info (body : string)
| st_metric (label value : string)
| st_dataframe (df : Pandas.DataFrame)
| st_download_button (label data file_name mime : string)
| st_charts (df : Pandas.DataFrame)
| st_analytics (df : Pandas.DataFrame)
| st_interrupted (df : Pandas.DataFrame)
| st_exception (e : string)
| placeholder_text (body : string)
| time_sleep (seconds : Z).

(** An entry of [st.cache_data]: the value returned, the elements the
    function showed (they are shown again on a hit), and when it was
    stored. *)
Record entry : Type := mkEntry {
  e_value : option Pandas.DataFrame;
  e_replay : list event;
  e_stored : Z
}.

(** The state a run works on: the clock in seconds, the data cache keyed
    by the arguments of [load_data], the resource cache of the one
    function without arguments, and what has been shown so far. *)
Record session : Type := mkSession {
  clock : Z;
  cache_data : gmap (string * string) entry;
  cache_resource : option (option Gspread.Client * list event);
  shown : list event
}.

(** A piece of script: it yields a value, or [None] once the run has been
    stopped, by [st.rerun()] or by an exception that nothing catches. *)
Definition script (A : Type) : Type := session -> option A * session.

Definition ret {A} (a : A) : script A := fun s => (Some a, s).

Definition bind {A B} (m : script A) (k : A -> script B) : script B :=
  fun s =>
    match m s with
    | (Some a, s') => k a s'
    | (None, s') => (None, s')
    end.

Definition get : script session := fun s => (Some s, s).

Definition show (es : list event) : script unit :=
  fun s => (Some tt, mkSession (clock s) (cache_data s) (cache_resource s)
                               (shown s ++ es)).

(** [time.sleep(n)] *)
Definition sleep (n : Z) : script unit :=
  fun s => (Some tt, mkSession (clock s + n) (cache_data s) (cache_resource s)
                               (shown s ++ [time_sleep n])).

(** [st.cache_data.clear()]: every entry of every function cached with
    [st.cache_data] goes. *)
Definition cache_data_clear : script unit :=
  fun s => (Some tt, mkSession (clock s) ∅ (cache_resource s) (shown s)).

(** [st.rerun()] *)
Definition rerun {A} : script A := fun s => (None, s).

(** An exception reaches the top of the script: streamlit shows it and the
    run ends there. *)
Definition uncaught {A} (e : string) : script A :=
  fun s => (None, mkSession (clock s) (cache_data s) (cache_resource s)
                            (shown s ++ [st_exception e])).

(** A [for] loop. *)
Fixpoint for_each {A} (xs : list A) (body : A -> script unit) : script unit :=
  match xs with
  | [] => ret tt
  | x :: xs' => bind (body x) (fun _ => for_each xs' body)
  end.

(** [@st.cache_data(ttl=...)] around a function of two string arguments
    whose body yields a value and the elements it showed, and may use the
    resource cache. *)
Definition cached_data (ttl : Z)
  (body : string -> string ->
          option (option Gspread.Client * list event) ->
          option Pandas.DataFrame * list event *
          option (option Gspread.Client * list event))
  (a b : string) : script (option Pandas.DataFrame) :=
  fun s =>
    let miss :=
      let '(v, es, rc) := body a b (cache_resource s) in
      (Some v, mkSession (clock s)
                         (<[(a, b) := mkEntry v es (clock s)]> (cache_data s))
                         rc (shown s ++ es)) in
    match cache_data s !! (a, b) with
    | Some e =>
        if clock s <? e_stored e + ttl
        then (Some (e_value e),
              mkSession (clock s) (cache_data s) (cache_resource s)
                        (shown s ++ e_replay e))
        else miss
    | None => miss
    end.

(** [@st.cache_resource] around a function without arguments. *)
Definition cached_resource
  (body : option Gspread.Client * list event)
  (rc : option (option Gspread.Client * list event))
  : option Gspread.Client * list event *
    option (option Gspread.Client * list event) :=
  match rc with
  | Some (v, es) => (v, es, rc)
  | None => (fst body, snd body, Some body)
  end.

End Streamlit.

Notation "x <- m ;; k" := (Streamlit.bind m (fun x => k))
  (at level 100, m at next level, right associativity, only parsing).
Notation "m ;; k" := (Streamlit.bind m (fun _ => k))
  (at level 100, right associativity, only parsing).

(** ** The script *)

Module App.
Import Pandas Gspread Streamlit.

(** What lies outside the script during one run: whether the service
    account of the secrets is accepted (and the client it then gives), and
    the values of the widgets and of [datetime.now()]. *)
Record World : Type := mkWorld {
  authorize : Py.result Client;
  sheet_url : string;         (* st.text_input("URL Google Sheets:") *)
  sheet_name : string;        (* st.text_input("Nama Sheet:") *)
  auto_refresh : bool;        (* st.checkbox("Auto Refresh (5 menit)") *)
  refresh_now : bool;         (* st.button("Refresh Sekarang") *)
  rows_to_show : nat;         (* st.slider("Tampilkan baris:", 5, 50, 20) *)
  now_HMS : string;           (* datetime.now().strftime("%H:%M:%S") *)
  now_Ymd : string            (* datetime.now().strftime("%Y%m%d") *)
}.

Section Script.
Context `{P : Library}.

(** Lines 18-33. *)
Definition connect_to_gsheet_body (w : World)
  : option Client * list event :=
  match authorize w with
  | Py.Ok client => (Some client, [])
  | Py.Raise e => (None, [st_error ("Error koneksi: " +:+ e)])
  end.

Definition connect_to_gsheet (w : World) :=
  cached_resource (connect_to_gsheet_body w).

(** The test of line 59. *)
Definition is_date_name (col : string) : bool :=
  Py.str_in "tanggal" (Py.lower col) || Py.str_in "date" (Py.lower col).

(** Lines 54-56: the numeric conversion of one column, tried on [object]
    columns only. *)
Definition numeric_step (df : DataFrame) (col : string)
  : Py.result DataFrame :=
  s <-? getitem df col;
  if dtype_eqb (Series_dtype s) object
  then s1 <-? getitem df col; Py.Ok (setitem df col (to_numeric s1))
  else Py.Ok df.

(** Lines 58-60: the date conversion of one column, tried when the name
    looks like a date. *)
Definition date_step (df : DataFrame) (col : string)
  : Py.result DataFrame :=
  if is_date_name col
  then s <-? getitem df col; Py.Ok (setitem df col (to_datetime s))
  else Py.Ok df.

(** One turn of the loop of lines 53-60. *)
Definition convert_column (df : DataFrame) (col : string)
  : Py.result DataFrame :=
  df1 <-? numeric_step df col;
  date_step df1 col.

Fixpoint convert_columns (cols : list string) (df : DataFrame)
  : Py.result DataFrame :=
  match cols with
  | [] => Py.Ok df
  | col :: cols' => df' <-? convert_column df col; convert_columns cols' df'
  end.

(** Lines 52-60: [for col in df.columns: ...]. *)
Definition auto_convert (df : DataFrame) : Py.result DataFrame :=
  convert_columns (columns df) df.

(** Lines 45-62, inside the [try]. *)
Definition fetch (client : Client) (url name : string)
  : Py.result DataFrame :=
  sheet <-? open_by_url client url;
  ws <-? worksheet sheet name;
  records <-? get_all_records ws;
  auto_convert (DataFrame_of_records records).

(** Lines 37-66 without the decorator. *)
Definition load_data_body (w : World) (url name : string)
  (rc : option (option Client * list event))
  : option DataFrame * list event * option (option Client * list event) :=
  let '(client, es, rc') := connect_to_gsheet w rc in
  match client with
  | None => (None, es, rc')
  | Some c =>
      match fetch c url name with
      | Py.Ok df => (Some df, es, rc')
      | Py.Raise e =>
          (None, es ++ [st_error ("Error loading data: " +:+ e)], rc')
      end
  end.

(** Line 36: [@st.cache_data(ttl=300)]. *)
Definition ttl : Z := 300.

Definition load_data (w : World) (url name : string)
  : script (option DataFrame) :=
  cached_data ttl (load_data_body w) url name.

(** [df.tail(n)] *)
Definition Series_tail (n : nat) (s : Series) : Series :=
  match s with
  | SInt64 xs => SInt64 (skipn (length xs - n) xs)
  | SFloat64 xs => SFloat64 (skipn (length xs - n) xs)
  | SObject xs => SObject (skipn (length xs - n) xs)
  | SDatetime64 tz xs => SDatetime64 tz (skipn (length xs - n) xs)
  | STimestamps xs => STimestamps (skipn (length xs - n) xs)
  end.

Definition tail (n : nat) (df : DataFrame) : DataFrame :=
  mkDataFrame (Nat.min n (index df))
              (List.map (fun cs => (fst cs, Series_tail n (snd cs))) (data df)).

Definition count_numeric (df : DataFrame) : nat :=
  length (List.filter (fun cs => is_numeric_dtype (Series_dtype (snd cs)))
                      (data df)).

Definition str_nat (n : nat) : string := Py.str_int (Z.of_nat n).

(** Lines 100-114. *)
Definition quick_stats (w : World) (df : DataFrame) : script unit :=
  show [ st_success ("✅ Data berhasil dimuat! Update terakhir: " +:+ now_HMS w);
         st_metric "📋 Total Baris" (str_nat (index df));
         st_metric "📊 Total Kolom" (str_nat (length (columns df)));
         st_metric "🔢 Kolom Numerik" (str_nat (count_numeric df));
         st_metric "📅 Data Terakhir" (str_nat (index df - 1 + 1)) ].

(** Lines 137-230: the charts tab and the analytics tab.  Their code draws
    with plotly and is not opened here; what is kept is that it either
    runs to its end or raises, in which case what it has drawn stays on
    the page, and that nothing catches what it raises (line 151,
    [df.reset_index()], raises for a frame with the columns "index" and
    "level_0"). *)
Definition tabs_charts_analytics (df : DataFrame) : script unit :=
  match charts_and_analytics df with
  | Py.Ok _ => show [ st_charts df; st_analytics df ]
  | Py.Raise e => show [ st_interrupted df ];; uncaught e
  end.

(** Lines 119-135: the data tab with the download. *)
Definition tab_data (w : World) (df : DataFrame) : script unit :=
  let csv := to_csv df in
  show [ st_subheader "📋 Data Terbaru";
         st_dataframe (tail (rows_to_show w) df);
         st_download_button "📥 Download CSV" csv
           ("data_" +:+ now_Ymd w +:+ ".csv") "text/csv" ].

(** Lines 239-242: one turn of the countdown. *)
Definition countdown_turn (seconds : Z) : script unit :=
  let '(mins, secs) := Py.divmod seconds 60 in
  show [ placeholder_text ("⏱️ Refresh berikutnya dalam: " +:+
                           Py.format_02d mins +:+ ":" +:+ Py.format_02d secs) ];;
  sleep 1.

(** Lines 233-246. *)
Definition auto_refresh_block (w : World) : script unit :=
  if auto_refresh w then
    show [ st_info "🔄 Auto-refresh aktif. Data akan diperbarui otomatis setiap 5 menit." ];;
    for_each (Py.range 300 0 (-1)) countdown_turn;;
    cache_data_clear;;
    rerun
  else ret tt.

(** [pd.DataFrame] of a dict of lists: one column per key, typed as the
    columns of records are. *)
Definition DataFrame_of_columns (cols : list (string * list pyobj))
  : DataFrame :=
  mkDataFrame
    (match cols with
     | [] => 0%nat
     | (_, xs) :: _ => length xs
     end)
    (List.map (fun cx => (fst cx, infer_objects (List.map Some (snd cx))))
              cols).

(** Lines 268-274. *)
Definition sample_data : DataFrame :=
  DataFrame_of_columns
    [ ("Tanggal", [ PStr "2024-01-01"; PStr "2024-01-02"; PStr "2024-01-03" ]);
      ("Penjualan", [ PInt 5000000; PInt 7500000; PInt 6200000 ]);
      ("Produk", [ PStr "Laptop"; PStr "Mouse"; PStr "Keyboard" ]);
      ("Kota", [ PStr "Jakarta"; PStr "Surabaya"; PStr "Bandung" ]);
      ("Sales", [ PStr "John"; PStr "Jane"; PStr "Bob" ]) ].

(** Lines 253-275, the welcome screen. *)
Definition welcome : script unit :=
  show [ st_info "👈 Masukkan URL Google Sheets di sidebar untuk mulai!";
         st_subheader "🚀 Cara Setup:";
         st_expander "📝 Langkah-langkah Setup";
         st_markdown "
        1. **Buat Google Sheet** dengan data Anda
        2. **Setup GCP Service Account** (gratis!)
        3. **Share sheet** dengan service account email
        4. **Masukkan URL** di sidebar
        5. **Nikmati dashboard real-time** Anda! 🎉
        ";
         st_subheader "💡 Contoh Format Data:";
         st_dataframe sample_data ].

(** Lines 277-292, the footer. *)
Definition footer : script unit :=
  show [ st_markdown "---";
         st_markdown "
**ℹ️ Info:**
- 🆓 Menggunakan **Google Sheets API Free Tier**
- 📊 **Cache 5 menit** untuk efisiensi quota
- 🔄 **Auto-refresh** opsional
- 📱 **Responsive** untuk mobile
";
         st_markdown "
**🔧 Troubleshooting:**
- Pastikan sheet sudah di-share dengan service account
- Cek nama sheet sudah benar
- URL harus format lengkap Google Sheets
" ].

(** Lines 99-251: what is drawn for the result of the loader. *)
Definition render (w : World) (df : option DataFrame) : script unit :=
  match df with
  | Some df =>
      if negb (empty df) then
        quick_stats w df;;
        show [ st_tabs [ "📋 Data"; "📈 Charts"; "📊 Analytics" ] ];;
        tab_data w df;;
        tabs_charts_analytics df;;
        auto_refresh_block w
      else
        show [ st_warning "📋 Sheet kosong atau tidak ada data" ]
  | None =>
      show [ st_error "❌ Gagal memuat data. Cek URL dan permissions!" ]
  end.

(** The top-level code, lines 68-292. *)
Definition main (w : World) : script unit :=
  show [ st_title "📊 Dashboard Real-time";
         st_markdown "*Terhubung dengan Google Sheets via API (Free Tier)*";
         st_header "⚙️ Konfigurasi" ];;
  (if refresh_now w then cache_data_clear;; rerun else ret tt);;
  (if negb (String.eqb (sheet_url w) "") then
     df <- load_data w (sheet_url w) (sheet_name w);;
     render w df
   else welcome);;
  footer.

End Script.

End App.

(** ** A reference library

    Small stand-ins for the parsers and printers of pandas, used by the
    examples: whole numbers and the empty text for [to_numeric], ISO dates
    for [to_datetime], exact decimal expansions for floats. *)

Module Reference.
Import Pandas.

Definition digit_of (c : ascii) : option Z :=
  let n := nat_of_ascii c in
  if (48 <=? n)%nat && (n <=? 57)%nat then Some (Z.of_nat (n - 48)) else None.

(** A non-empty run of digits, most significant first. *)
Fixpoint digits_from (acc : Z) (s : string) : option Z :=
  match s with
  | EmptyString => Some acc
  | String c s' =>
      match digit_of c with
      | Some d => digits_from (10 * acc + d) s'
      | None => None
      end
  end.

Definition natural (s : string) : option Z :=
  match s with
  | EmptyString => None
  | _ => digits_from 0 s
  end.

(** The empty text is a missing number, as for pandas. *)
Definition decimal_number (s : string) : option number :=
  match s with
  | EmptyString => Some (NFloat NaN)
  | String c s' =>
      if Ascii.eqb c "-"
      then z ← natural s'; Some (NInt (- z))
      else z ← natural s; Some (NInt z)
  end.

Definition ns_per_day : Z := 86400 * 1000000000.

Definition NaT : Z := - 2 ^ 63.

Definition days_from_civil (y m d : Z) : Z :=
  let y' := if m <=? 2 then y - 1 else y in
  let era := y' / 400 in
  let yoe := y' - era * 400 in
  let doy := (153 * (if 2 <? m then m - 3 else m + 9) + 2) / 5 + d - 1 in
  let doe := yoe * 365 + yoe / 4 - yoe / 100 + doy in
  era * 146097 + doe - 719468.

Definition civil_from_days (days : Z) : Z * Z * Z :=
  let z := days + 719468 in
  let era := z / 146097 in
  let doe := z - era * 146097 in
  let yoe := (doe - doe / 1460 + doe / 36524 - doe / 146096) / 365 in
  let doy := doe - (365 * yoe + yoe / 4 - yoe / 100) in
  let mp := (5 * doy + 2) / 153 in
  let d := doy - (153 * mp + 2) / 5 + 1 in
  let m := if mp <? 10 then mp + 3 else mp - 9 in
  (yoe + era * 400 + (if m <=? 2 then 1 else 0), m, d).

Definition days_in_month (y m : Z) : Z :=
  if m =? 2 then
    if ((y mod 4 =? 0) && negb (y mod 100 =? 0)) || (y mod 400 =? 0)
    then 29 else 28
  else if (m =? 4) || (m =? 6) || (m =? 9) || (m =? 11) then 30 else 31.

(** [YYYY-MM-DD], midnight. *)
Definition iso_date (s : string) : option Z :=
  if (String.length s =? 10)%nat
     && String.eqb (substring 4 1 s) "-" && String.eqb (substring 7 1 s) "-"
  then
    y ← natural (substring 0 4 s);
    m ← natural (substring 5 2 s);
    d ← natural (substring 8 2 s);
    if (1 <=? m) && (m <=? 12) && (1 <=? d) && (d <=? days_in_month y m)
    then Some (days_from_civil y m d * ns_per_day)
    else None
  else None.

(** A float as a count of nanoseconds, towards minus infinity. *)
Definition float_ns (f : float) : option Z :=
  match Prim2SF f with
  | S754_zero _ => Some 0
  | S754_finite neg m e =>
      Some (Z.shiftl (if neg then Z.neg m else Z.pos m) e)
  | S754_nan => Some NaT
  | S754_infinity _ => None
  end.

(** The decimal expansion of [m / 2 ^ k] after the point, without the
    zeros at its end. *)
Fixpoint strip_zeros (digits : list Z) : list Z :=
  match digits with
  | [] => []
  | d :: ds =>
      match strip_zeros ds with
      | [] => if d =? 0 then [] else [d]
      | ds' => d :: ds'
      end
  end.

Fixpoint fraction_digits (k : nat) (num den : Z) : list Z :=
  match k with
  | O => []
  | S k' => (10 * num / den) :: fraction_digits k' (10 * num mod den) den
  end.

Definition render_digits (ds : list Z) : string :=
  String.concat "" (List.map Py.str_int ds).

(** NaN is printed as nothing; a finite float as its exact value. *)
Definition exact_repr (f : float) : string :=
  match Prim2SF f with
  | S754_zero neg => if neg then "-0.0" else "0.0"
  | S754_finite neg m e =>
      let sign := if neg then "-" else "" in
      if 0 <=? e then sign +:+ Py.str_int (Z.shiftl (Z.pos m) e) +:+ ".0"
      else
        let den := 2 ^ (- e) in
        let frac := strip_zeros
                      (fraction_digits (Z.to_nat (- e)) (Z.pos m mod den) den) in
        sign +:+ Py.str_int (Z.pos m / den) +:+ "." +:+
        (match frac with [] => "0" | _ => render_digits frac end)
  | S754_nan => ""
  | S754_infinity neg => if neg then "-inf" else "inf"
  end.

Definition two (n : Z) : string := Py.zfill 2 (Py.str_int n).

(** A time stamp with its date, and with its time of day when [full]. *)
Definition iso_repr (full : bool) (ns : Z) : string :=
  if ns =? NaT then ""
  else
    let '(y, m, d) := civil_from_days (ns / ns_per_day) in
    let date := Py.zfill 4 (Py.str_int y) +:+ "-" +:+ two m +:+ "-" +:+ two d in
    let secs := (ns mod ns_per_day) / 1000000000 in
    if full
    then date +:+ " " +:+ two (secs / 3600) +:+ ":" +:+
         two (secs / 60 mod 60) +:+ ":" +:+ two (secs mod 60)
    else date.

Definition midnight (ns : Z) : bool := (ns =? NaT) || (ns mod ns_per_day =? 0).

(** The cells of a datetime column: the time of day is left out when
    every cell is at midnight, and printed for every cell otherwise. *)
Definition iso_column (tz : option Z) (ts : list Z) : list string :=
  List.map (iso_repr (negb (forallb midnight ts))) ts.

Definition iso_timestamp (t : Z * Z) : string := iso_repr true (fst t).

(** The cells of an [object] column, one by one: an integer is a count of
    nanoseconds, a float goes through [float_ns], a text must be an ISO
    date. *)
Definition iso_cell (v : pyobj) : option Z :=
  match v with
  | PInt z => Some z
  | PFloat f => float_ns f
  | PStr s => iso_date s
  end.

Definition iso_cells (xs : list pyobj) : option stamps :=
  match mapM iso_cell xs with
  | Some ts => Some (Stamps None ts)
  | None => None
  end.

(** The one failure of the drawing code that is known: [reset_index]
    cannot insert its column when "index" and "level_0" are both taken. *)
Definition draws (df : DataFrame) : Py.result unit :=
  if existsb (String.eqb "index") (columns df)
     && existsb (String.eqb "level_0") (columns df)
  then Py.Raise "cannot insert level_0, already exists"
  else Py.Ok tt.

(** The reference library for a given [csv] writer. *)
Definition library_with (quote_cr : bool) : Library.
Proof.
  refine {|
    str_to_number := decimal_number;
    objects_to_datetime := iso_cells;
    float_to_datetime := float_ns;
    float_repr := exact_repr;
    datetimes_repr := iso_column;
    timestamp_repr := iso_timestamp;
    csv_quotes_CR := quote_cr;
    charts_and_analytics := draws
  |}.
  - intros xs p. unfold iso_cells.
    destruct (mapM iso_cell xs) as [ts|] eqn:E; [|discriminate].
    intros [= <-]. simpl. symmetry. exact (length_mapM _ _ _ E).
  - intros tz ts. unfold iso_column. apply length_map.
Defined.

(** A writer that quotes carriage returns, and one that does not. *)
Definition library : Library := library_with true.

End Reference.

(** ** The vocabulary of the properties *)

Module Spec.
Import Pandas Gspread Streamlit App.

Section Vocabulary.
Context `{P : Library}.




(** The column after the numeric attempt of lines 54-56. *)
Definition after_numeric (s : Series) : Series :=
  if dtype_eqb (Series_dtype s) object then to_numeric s else s.

(** The column after the date attempt of lines 58-60 under the name
    [col]. *)
Definition after_date (col : string) (s : Series) : Series :=
  if is_date_name col then to_datetime s else s.

(** The column named [col] after one turn of the loop. *)
Definition convert_series (col : string) (s : Series) : Series :=
  after_date col (after_numeric s).

(** [needle] occurs in [hay]. *)
Definition contains (needle hay : string) : Prop :=
  exists pre post, hay = pre +:+ needle +:+ post.

(** The capital and the small form of each letter, side by side. *)
Definition capitals : string := "ABCDEFGHIJKLMNOPQRSTUVWXYZ".
Definition smalls : string := "abcdefghijklmnopqrstuvwxyz".

Definition case_pairs : list (ascii * ascii) :=
  List.combine (list_ascii_of_string capitals) (list_ascii_of_string smalls).

(** The same character, or the two forms of one letter. *)
Definition same_letter (c d : ascii) : bool :=
  Ascii.eqb c d ||
  existsb (fun p => (Ascii.eqb (fst p) c && Ascii.eqb (snd p) d) ||
                    (Ascii.eqb (fst p) d && Ascii.eqb (snd p) c))
          case_pairs.

(** Two texts that differ in the case of their letters at most. *)
Fixpoint same_letters (a b : string) : bool :=
  match a, b with
  | EmptyString, EmptyString => true
  | String c a', String d b' => same_letter c d && same_letters a' b'
  | _, _ => false
  end.

(** [needle] occurs in [hay], whatever the case of the letters. *)
Definition contains_any_case (needle hay : string) : Prop :=
  exists pre mid post,
    hay = pre +:+ mid +:+ post /\ same_letters mid needle = true.

(** The name holds "tanggal" or "date", whatever the case of its
    letters. *)
Definition date_named (col : string) : Prop :=
  contains_any_case "tanggal" col \/ contains_any_case "date" col.

(** The columns of a frame all have as many cells as the index. *)
Definition well_formed (df : DataFrame) : Prop :=
  Forall (fun cs => Series_len (snd cs) = index df) (data df).

(** Locator resolution, sheet resolution or the fetch raises [e]. *)
Definition fetch_raises (client : Client) (url name e : string) : Prop :=
  open_by_url client url = Py.Raise e \/
  (exists sheet, open_by_url client url = Py.Ok sheet /\
                 worksheet sheet name = Py.Raise e) \/
  (exists sheet ws, open_by_url client url = Py.Ok sheet /\
                    worksheet sheet name = Py.Ok ws /\
                    get_all_records ws = Py.Raise e).

(** The worksheet is found and holds the records [rs]. *)
Definition sheet_holds (client : Client) (url name : string)
  (rs : list record) : Prop :=
  exists sheet ws, open_by_url client url = Py.Ok sheet /\
                   worksheet sheet name = Py.Ok ws /\
                   get_all_records ws = Py.Ok rs.

(** The data cache has an entry for the key that is younger than the
    freshness window. *)
Definition is_fresh (s : session) (url name : string) : bool :=
  match cache_data s !! (url, name) with
  | Some e => clock s <? e_stored e + ttl
  | None => false
  end.

(** What one turn of the countdown shows and does. *)
Definition countdown_events (seconds : Z) : list event :=
  [ placeholder_text ("⏱️ Refresh berikutnya dalam: " +:+
                      Py.format_02d (seconds / 60) +:+ ":" +:+
                      Py.format_02d (seconds mod 60));
    time_sleep 1 ].

Definition is_sleep (e : event) : bool :=
  match e with
  | time_sleep _ => true
  | _ => false
  end.

(** The run draws a table or offers the download. *)
Definition is_table (e : event) : bool :=
  match e with
  | st_dataframe _ | st_download_button _ _ _ _
  | st_charts _ | st_analytics _ | st_interrupted _ => true
  | _ => false
  end.

Definition is_error (e : event) : bool :=
  match e with
  | st_error _ => true
  | _ => false
  end.

End Vocabulary.


(** What every run shows first and last. *)
Definition banner : list event :=
  [ st_title "📊 Dashboard Real-time";
    st_markdown "*Terhubung dengan Google Sheets via API (Free Tier)*";
    st_header "⚙️ Konfigurasi" ].

Definition closing : list event :=
  [ st_markdown "---";
    st_markdown "
**ℹ️ Info:**
- 🆓 Menggunakan **Google Sheets API Free Tier**
- 📊 **Cache 5 menit** untuk efisiensi quota
- 🔄 **Auto-refresh** opsional
- 📱 **Responsive** untuk mobile
";
    st_markdown "
**🔧 Troubleshooting:**
- Pastikan sheet sudah di-share dengan service account
- Cek nama sheet sudah benar
- URL harus format lengkap Google Sheets
" ].

(** The session in which [load_data] is called by a run that began in
    [s]. *)
Definition at_load (s : session) : session :=
  mkSession (clock s) (cache_data s) (cache_resource s) (shown s ++ banner).

(** The sheet of the scenario: two records with a date, an amount and a
    product. *)
Definition sales_sheet : list record :=
  [ [ ("Tanggal", PStr "2024-01-01"); ("Penjualan", PInt 5000000);
      ("Produk", PStr "Laptop") ];
    [ ("Tanggal", PStr "2024-01-02"); ("Penjualan", PInt 7500000);
      ("Produk", PStr "Mouse") ] ].


(** A client that serves one worksheet of one spreadsheet. *)
Definition serving (url name : string) (rs : list record) : Client :=
  mkClient (fun u =>
    if String.eqb u url
    then Py.Ok (mkSpreadsheet (fun n =>
           if String.eqb n name
           then Py.Ok (mkWorksheet (Py.Ok rs))
           else Py.Raise n))
    else Py.Raise u).

Definition world_of (c : Py.result Client) (url name : string)
  (auto now : bool) : World :=
  mkWorld c url name auto now 20 "12:00:00" "20240101".

Definition new_session (t : Z) : session := mkSession t ∅ None [].

(** The resource cache is empty or holds what [connect_to_gsheet] once
    returned. *)
Definition resource_ok (rc : option (option Client * list event)) : Prop :=
  rc = None \/ exists w, rc = Some (connect_to_gsheet_body w).

(** Two worlds with the same values in the widgets and the same texts of
    [datetime.now()]; they may differ in what the service answers. *)
Definition same_widgets (w w' : World) : Prop :=
  sheet_url w = sheet_url w' /\ sheet_name w = sheet_name w' /\
  auto_refresh w = auto_refresh w' /\ refresh_now w = refresh_now w' /\
  rows_to_show w = rows_to_show w' /\
  now_HMS w = now_HMS w' /\ now_Ymd w = now_Ymd w'.

(** The table of the welcome screen: three rows of five columns, the
    dates as texts. *)
Definition sample_table : DataFrame :=
  mkDataFrame 3
    [ ("Tanggal",
       SObject [ PStr "2024-01-01"; PStr "2024-01-02"; PStr "2024-01-03" ]);
      ("Penjualan", SInt64 [ 5000000; 7500000; 6200000 ]);
      ("Produk", SObject [ PStr "Laptop"; PStr "Mouse"; PStr "Keyboard" ]);
      ("Kota", SObject [ PStr "Jakarta"; PStr "Surabaya"; PStr "Bandung" ]);
      ("Sales", SObject [ PStr "John"; PStr "Jane"; PStr "Bob" ]) ].

(** What lines 253-275 show. *)
Definition welcome_page : list event :=
  [ st_info "👈 Masukkan URL Google Sheets di sidebar untuk mulai!";
    st_subheader "🚀 Cara Setup:";
    st_expander "📝 Langkah-langkah Setup";
    st_markdown "
        1. **Buat Google Sheet** dengan data Anda
        2. **Setup GCP Service Account** (gratis!)
        3. **Share sheet** dengan service account email
        4. **Masukkan URL** di sidebar
        5. **Nikmati dashboard real-time** Anda! 🎉
        ";
    st_subheader "💡 Contoh Format Data:";
    st_dataframe sample_table ].

(** What lines 100-135 show for a frame with rows and columns: the
    success line, the four metrics, the tab bar and the data tab. *)
Definition data_tab_page `{P : Library} (w : World) (df : DataFrame)
  : list event :=
  [ st_success ("✅ Data berhasil dimuat! Update terakhir: " +:+ now_HMS w);
    st_metric "📋 Total Baris" (str_nat (index df));
    st_metric "📊 Total Kolom" (str_nat (length (columns df)));
    st_metric "🔢 Kolom Numerik" (str_nat (count_numeric df));
    st_metric "📅 Data Terakhir" (str_nat (index df));
    st_tabs [ "📋 Data"; "📈 Charts"; "📊 Analytics" ];
    st_subheader "📋 Data Terbaru";
    st_dataframe (tail (rows_to_show w) df);
    st_download_button "📥 Download CSV" (to_csv df)
      ("data_" +:+ now_Ymd w +:+ ".csv") "text/csv" ].

(** What lines 100-230 show when the charts and the analytics are
    drawn. *)
Definition data_page `{P : Library} (w : World) (df : DataFrame)
  : list event :=
  data_tab_page w df ++ [ st_charts df; st_analytics df ].

(** The notice of line 235. *)
Definition refresh_notice : event :=
  st_info "🔄 Auto-refresh aktif. Data akan diperbarui otomatis setiap 5 menit.".




(** The cells of a column as values, whatever their storage. *)
Inductive cell : Type :=
| CInt (z : Z)
| CFloat (f : float)
| CObject (o : pyobj)
| CStamp (tz : option Z) (t : Z)
| CTimestamp (t : Z * Z).

Definition Series_cells (s : Series) : list cell :=
  match s with
  | SInt64 xs => List.map CInt xs
  | SFloat64 xs => List.map CFloat xs
  | SObject xs => List.map CObject xs
  | SDatetime64 tz xs => List.map (CStamp tz) xs
  | STimestamps xs => List.map CTimestamp xs
  end.

(** The frame row by row. *)
Definition row_cells (df : DataFrame) (i : nat) : list cell :=
  List.map (fun cs => nth i (Series_cells (snd cs)) (CObject (PStr "")))
           (data df).

Definition rows_cells (df : DataFrame) : list (list cell) :=
  List.map (row_cells df) (List.seq 0 (index df)).


(** A sheet whose header takes both names that [reset_index] needs. *)
Definition index_sheet : list record :=
  [ [ ("index", PInt 1); ("level_0", PInt 2) ] ].

End Spec.

(** * Properties *)

Import Pandas Gspread Streamlit App Spec.

(** ** Frames: labels and in-place replacement *)

Lemma dtype_eqb_eq (a b : dtype) : dtype_eqb a b = true <-> a = b.
Proof. destruct a, b; simpl; split; intros H; congruence. Qed.

Lemma dict_get_Some {V} (d : Py.dict V) (k : string) :
  In k (Py.dict_keys d) -> exists v, Py.dict_get d k = Some v.
Proof.
  induction d as [|[k' v] d IH]; simpl; [tauto|].
  intros [->|Hin].
  - rewrite String.eqb_refl. eauto.
  - destruct (String.eqb k' k); eauto.
Qed.

Lemma dict_get_keys {V} (d : Py.dict V) (k : string) (v : V) :
  Py.dict_get d k = Some v -> In k (Py.dict_keys d).
Proof.
  induction d as [|[k' v'] d IH]; simpl; [discriminate|].
  destruct (String.eqb_spec k' k) as [->|Hne]; auto.
Qed.

Lemma dict_get_In {V} (d : Py.dict V) (k : string) (v : V) :
  Py.dict_get d k = Some v -> In (k, v) d.
Proof.
  induction d as [|[k' v'] d IH]; simpl; [discriminate|].
  destruct (String.eqb_spec k' k) as [->|Hne]; [intros [= ->]|]; auto.
Qed.

Lemma In_dict_get {V} (d : Py.dict V) (k : string) (v : V) :
  List.NoDup (Py.dict_keys d) -> In (k, v) d -> Py.dict_get d k = Some v.
Proof.
  induction d as [|[k' v'] d IH]; simpl; [tauto|].
  intros Hnd [[= -> ->]|Hin].
  - by rewrite String.eqb_refl.
  - inversion Hnd as [|? ? Hk' Hnd']; subst.
    destruct (String.eqb_spec k' k) as [->|Hne]; [|auto].
    exfalso. apply Hk'. apply (in_map fst) in Hin. exact Hin.
Qed.

Lemma setcol_keys cols col s :
  Py.dict_keys (setcol cols col s) = Py.dict_keys cols.
Proof.
  induction cols as [|[c s0] cols IH]; simpl; [done|]. by rewrite IH.
Qed.

Lemma setcol_get cols col s c :
  Py.dict_get (setcol cols col s) c =
  if String.eqb c col then (fun _ => s) <$> Py.dict_get cols c
  else Py.dict_get cols c.
Proof.
  induction cols as [|[c0 s0] cols IH]; simpl.
  - by destruct (String.eqb c col).
  - destruct (String.eqb_spec c0 c) as [->|Hne].
    + by destruct (String.eqb c col).
    + exact IH.
Qed.

Lemma setcol_len cols col s n :
  Series_len s = n ->
  Forall (fun cs => Series_len (snd cs) = n) cols ->
  Forall (fun cs => Series_len (snd cs) = n) (setcol cols col s).
Proof.
  intros Hs. induction 1 as [|[c s0] cols Hc Hcols IH]; simpl; constructor; auto.
  simpl. by destruct (String.eqb c col).
Qed.

(** Replacing a column by itself changes nothing when labels are unique. *)
Lemma setcol_same cols col s :
  List.NoDup (Py.dict_keys cols) -> Py.dict_get cols col = Some s ->
  setcol cols col s = cols.
Proof.
  induction cols as [|[c s0] cols IH]; simpl; [done|].
  intros Hnd Hget. inversion Hnd as [|? ? Hc Hnd']; subst.
  destruct (String.eqb_spec c col) as [->|Hne].
  - injection Hget as ->. f_equal.
    clear IH Hnd Hnd'. induction cols as [|[c1 s1] cols IH]; simpl; [done|].
    simpl in Hc. destruct (String.eqb_spec c1 col) as [->|Hne]; [tauto|].
    f_equal. apply IH. tauto.
  - f_equal. auto.
Qed.

(** ** The converters keep the length of a column *)

Section Lengths.
Context `{P : Library}.

Lemma pack_numbers_len ns : Series_len (pack_numbers ns) = length ns.
Proof.
  unfold pack_numbers. destruct (mapM number_int ns) as [zs|] eqn:E; simpl.
  - symmetry. by eapply length_mapM.
  - by rewrite length_map.
Qed.

Lemma to_numeric_len s : Series_len (to_numeric s) = Series_len s.
Proof.
  destruct s as [xs|xs|xs|tz xs|xs]; simpl; try done.
  destruct (mapM number_of xs) as [ns|] eqn:E; simpl; [|done].
  rewrite pack_numbers_len. symmetry. by eapply length_mapM.
Qed.

Lemma to_datetime_len s : Series_len (to_datetime s) = Series_len s.
Proof.
  destruct s as [xs|xs|xs|tz xs|xs]; simpl; try done.
  - destruct (mapM float_to_datetime xs) as [ts|] eqn:E; simpl; [|done].
    symmetry. by eapply length_mapM.
  - destruct (objects_to_datetime xs) as [[tz ts|ts]|] eqn:E; simpl; [| |done].
    + exact (objects_to_datetime_len xs _ E).
    + exact (objects_to_datetime_len xs _ E).
Qed.

Lemma convert_series_len col s :
  Series_len (convert_series col s) = Series_len s.
Proof.
  unfold convert_series, after_date, after_numeric.
  destruct (is_date_name col); rewrite ?to_datetime_len;
    destruct (dtype_eqb _ _); by rewrite ?to_numeric_len.
Qed.

End Lengths.

(** ** The conversion loop, column by column *)

Section Loop.
Context `{P : Library}.

Lemma setcol_setcol cols col a b :
  setcol (setcol cols col a) col b = setcol cols col b.
Proof.
  induction cols as [|[c s0] cols IH]; simpl; [done|].
  rewrite IH. by destruct (String.eqb c col).
Qed.

Lemma setitem_same df col s :
  List.NoDup (columns df) -> Py.dict_get (data df) col = Some s ->
  setitem df col s = df.
Proof.
  intros Hnd Hget. destruct df as [n cols]. unfold setitem. simpl in *.
  f_equal. by apply setcol_same.
Qed.

Lemma numeric_step_spec df col s :
  List.NoDup (columns df) -> Py.dict_get (data df) col = Some s ->
  numeric_step df col = Py.Ok (setitem df col (after_numeric s)).
Proof.
  intros Hnd Hget. unfold numeric_step, getitem, after_numeric.
  rewrite Hget. simpl.
  destruct (dtype_eqb (Series_dtype s) object); [done|].
  by rewrite setitem_same.
Qed.

Lemma date_step_spec df col s :
  List.NoDup (columns df) -> Py.dict_get (data df) col = Some s ->
  date_step df col = Py.Ok (setitem df col (after_date col s)).
Proof.
  intros Hnd Hget. unfold date_step, getitem, after_date.
  destruct (is_date_name col).
  - by rewrite Hget.
  - by rewrite setitem_same.
Qed.

Lemma convert_column_spec df col s :
  List.NoDup (columns df) -> Py.dict_get (data df) col = Some s ->
  convert_column df col = Py.Ok (setitem df col (convert_series col s)).
Proof.
  intros Hnd Hget. unfold convert_column.
  rewrite (numeric_step_spec _ _ _ Hnd Hget). simpl.
  rewrite (date_step_spec _ col (after_numeric s)).
  - unfold setitem. simpl. by rewrite setcol_setcol.
  - unfold columns, setitem. simpl.
    change (List.map fst ?l) with (Py.dict_keys l). by rewrite setcol_keys.
  - unfold setitem. simpl. rewrite setcol_get, String.eqb_refl, Hget. done.
Qed.

(** The loop over any duplicate-free list of labels of the frame never
    raises, keeps the index and the labels, and leaves in each listed
    column what one turn makes of it. *)
Lemma convert_columns_spec cols : forall df,
  List.NoDup (columns df) -> List.NoDup cols -> incl cols (columns df) ->
  exists df',
    convert_columns cols df = Py.Ok df' /\
    index df' = index df /\
    columns df' = columns df /\
    forall c s, Py.dict_get (data df) c = Some s ->
      Py.dict_get (data df') c =
      Some (if existsb (String.eqb c) cols then convert_series c s else s).
Proof.
  induction cols as [|col cols IH]; intros df Hnd Hcols Hincl; simpl.
  - exists df. repeat split; auto.
  - inversion Hcols as [|? ? Hcol Hcols']; subst.
    destruct (dict_get_Some (data df) col) as [s0 Hs0].
    { apply Hincl. by left. }
    rewrite (convert_column_spec _ _ _ Hnd Hs0). simpl.
    set (df1 := setitem df col (convert_series col s0)).
    assert (Hk1 : columns df1 = columns df).
    { unfold columns, df1, setitem. simpl.
      change (List.map fst ?l) with (Py.dict_keys l). by rewrite setcol_keys. }
    destruct (IH df1) as (df' & Hrun & Hidx & Hk & Hget).
    { by rewrite Hk1. }
    { done. }
    { rewrite Hk1. intros c Hc. apply Hincl. by right. }
    exists df'. repeat split; [done|done|congruence|].
    intros c s Hs.
    assert (H1 : Py.dict_get (data df1) c =
                 Some (if String.eqb c col then convert_series col s0 else s)).
    { unfold df1, setitem. simpl. rewrite setcol_get, Hs.
      by destruct (String.eqb c col). }
    rewrite (Hget _ _ H1).
    destruct (String.eqb_spec c col) as [->|Hne]; simpl.
    + assert (Hs' : s = s0) by congruence. subst s.
      destruct (existsb (String.eqb col) cols) eqn:E; [|done].
      exfalso. apply Hcol. apply existsb_exists in E as (x & Hx & Heq).
      apply String.eqb_eq in Heq. by subst.
    + done.
Qed.

End Loop.

(** ** Frames built from records *)

Lemma add_keys_NoDup r : forall seen,
  List.NoDup seen -> List.NoDup (add_keys seen r).
Proof.
  unfold add_keys. induction (Py.dict_keys r) as [|k ks IH]; intros seen Hnd;
    simpl; [done|].
  apply IH. destruct (existsb (String.eqb k) seen) eqn:E; [done|].
  apply NoDup_app_remove_l with (l := []). simpl.
  apply List.NoDup_rev in Hnd. rewrite <- (rev_involutive (seen ++ [k])).
  apply List.NoDup_rev. rewrite rev_unit. constructor; [|done].
  intros Hin. apply in_rev in Hin.
  assert (existsb (String.eqb k) seen = true); [|congruence].
  apply existsb_exists. exists k. split; [done|apply String.eqb_refl].
Qed.

Lemma union_keys_NoDup rs : List.NoDup (union_keys rs).
Proof.
  unfold union_keys. assert (H : List.NoDup (@nil string)) by constructor.
  revert H. generalize (@nil string).
  induction rs as [|r rs IH]; intros seen Hnd; simpl; [done|].
  apply IH. by apply add_keys_NoDup.
Qed.

Lemma infer_objects_len cells :
  Series_len (infer_objects cells) = length cells.
Proof.
  unfold infer_objects. destruct cells as [|c cells]; [done|].
  destruct (mapM as_int (c :: cells)) as [zs|] eqn:E1.
  { apply length_mapM in E1. simpl in *. congruence. }
  destruct (mapM as_float (c :: cells)) as [fs|] eqn:E2.
  { apply length_mapM in E2. simpl in *. congruence. }
  simpl. by rewrite length_map.
Qed.

Lemma column_of_len rs col : Series_len (column_of rs col) = length rs.
Proof. unfold column_of. by rewrite infer_objects_len, length_map. Qed.

Lemma tabulate_keys {V} (f : string -> V) ks :
  Py.dict_keys (List.map (fun k => (k, f k)) ks) = ks.
Proof.
  unfold Py.dict_keys. rewrite List.map_map. simpl. apply List.map_id.
Qed.

Lemma tabulate_get {V} (f : string -> V) ks c :
  In c ks -> Py.dict_get (List.map (fun k => (k, f k)) ks) c = Some (f c).
Proof.
  induction ks as [|k ks IH]; simpl; [tauto|].
  destruct (String.eqb_spec k c) as [->|Hne]; [done|].
  intros [?|?]; [done|auto].
Qed.

Lemma records_columns rs : columns (DataFrame_of_records rs) = union_keys rs.
Proof. apply tabulate_keys. Qed.

Lemma records_get rs c :
  In c (union_keys rs) ->
  Py.dict_get (data (DataFrame_of_records rs)) c = Some (column_of rs c).
Proof. apply (tabulate_get (column_of rs)). Qed.

(** ** What the loader makes of a sheet *)

Section Loaded.
Context `{P : Library}.

(** The conversion of a fetched sheet never raises; the frame has one row
    per record, the labels of the records in their order, and in each
    column what one turn of the loop makes of the inferred column. *)
Lemma auto_convert_records rs :
  exists df,
    auto_convert (DataFrame_of_records rs) = Py.Ok df /\
    index df = length rs /\
    columns df = union_keys rs /\
    (forall c, In c (union_keys rs) ->
       Py.dict_get (data df) c = Some (convert_series c (column_of rs c))) /\
    well_formed df.
Proof.
  destruct (convert_columns_spec (columns (DataFrame_of_records rs))
              (DataFrame_of_records rs)) as (df & Hrun & Hidx & Hk & Hget).
  { rewrite records_columns. apply union_keys_NoDup. }
  { rewrite records_columns. apply union_keys_NoDup. }
  { apply incl_refl. }
  rewrite records_columns in Hk.
  assert (Hcol : forall c, In c (union_keys rs) ->
            Py.dict_get (data df) c = Some (convert_series c (column_of rs c))).
  { intros c Hc. rewrite (Hget c _ (records_get rs c Hc)).
    rewrite records_columns.
    destruct (existsb (String.eqb c) (union_keys rs)) eqn:E; [done|].
    assert (existsb (String.eqb c) (union_keys rs) = true); [|congruence].
    apply existsb_exists. exists c. split; [done|apply String.eqb_refl]. }
  exists df. repeat split; try done.
  unfold well_formed. apply List.Forall_forall. intros [c s] Hin. simpl.
  assert (Hc : In c (union_keys rs)).
  { rewrite <- Hk. unfold columns. by apply (in_map fst) in Hin. }
  assert (Hs : Py.dict_get (data df) c = Some s).
  { apply In_dict_get; [|done].
    change (List.NoDup (columns df)). rewrite Hk. apply union_keys_NoDup. }
  rewrite (Hcol c Hc) in Hs. injection Hs as <-.
  by rewrite convert_series_len, column_of_len, Hidx.
Qed.

End Loaded.

Section Policies.
Context `{P : Library}.

Lemma getitem_Ok df col s :
  getitem df col = Py.Ok s <-> Py.dict_get (data df) col = Some s.
Proof.
  unfold getitem. destruct (Py.dict_get (data df) col); split; congruence.
Qed.

(** The same in terms of [df[col]] before and after. *)
Lemma auto_convert_getitem rs :
  exists df,
    auto_convert (DataFrame_of_records rs) = Py.Ok df /\
    index df = length rs /\
    columns df = union_keys rs /\
    well_formed df /\
    forall col s, getitem (DataFrame_of_records rs) col = Py.Ok s ->
      getitem df col = Py.Ok (convert_series col s).
Proof.
  destruct (auto_convert_records rs) as (df & Hrun & Hidx & Hk & Hget & Hwf).
  exists df. repeat split; try done.
  intros col s Hs. apply getitem_Ok in Hs. apply getitem_Ok.
  assert (Hc : In col (union_keys rs)).
  { rewrite <- records_columns. by eapply dict_get_keys. }
  rewrite (records_get rs col Hc) in Hs. injection Hs as <-. by apply Hget.
Qed.









End Policies.

(** ** The test on the name of a column *)

Lemma append_String c a b : String c a +:+ b = String c (a +:+ b).
Proof. reflexivity. Qed.

Lemma append_empty_l b : EmptyString +:+ b = b.
Proof. reflexivity. Qed.

Lemma prefix_spec a : forall b,
  String.prefix a b = true <-> exists post, b = a +:+ post.
Proof.
  induction a as [|c a IH]; intros b.
  - split; [intros _; by exists b|intros _; by destruct b].
  - destruct b as [|c' b]; simpl.
    + split; [done|intros [post H]; discriminate].
    + destruct (Ascii.ascii_dec c c') as [->|Hne].
      * rewrite IH. split; intros [post H]; exists post;
          rewrite append_String in *; congruence.
      * split; [done|intros [post H]; rewrite append_String in H; congruence].
Qed.

Lemma str_in_unfold needle hay :
  Py.str_in needle hay =
  String.prefix needle hay ||
  match hay with
  | EmptyString => false
  | String _ hay' => Py.str_in needle hay'
  end.
Proof. by destruct hay. Qed.

Lemma str_in_spec needle hay :
  Py.str_in needle hay = true <-> contains needle hay.
Proof.
  split.
  - induction hay as [|c hay IH]; rewrite str_in_unfold, orb_true_iff.
    + intros [H|H]; [|done]. apply prefix_spec in H as [post H].
      by exists EmptyString, post.
    + intros [H|H].
      * apply prefix_spec in H as [post H]. by exists EmptyString, post.
      * destruct (IH H) as (pre & post & ->). by exists (String c pre), post.
  - intros (pre & post & ->). induction pre as [|c pre IH].
    + rewrite append_empty_l, str_in_unfold, orb_true_iff. left.
      apply prefix_spec. eauto.
    + rewrite append_String, str_in_unfold, IH. apply orb_true_r.
Qed.

(** The two forms of a letter have the same small form, and every
    character is the same letter as its small form. *)
Lemma same_letter_lower c d :
  same_letter c d = true -> Py.lower_ascii c = Py.lower_ascii d.
Proof.
  unfold same_letter. rewrite orb_true_iff. intros [H|H].
  - apply Ascii.eqb_eq in H. by subst.
  - apply existsb_exists in H as (p & Hin & Hp).
    rewrite orb_true_iff, !andb_true_iff, !Ascii.eqb_eq in Hp.
    cbv [case_pairs capitals smalls list_ascii_of_string List.combine In]
      in Hin.
    repeat (destruct Hin as [<-|Hin];
            [simpl in Hp; destruct Hp as [[<- <-]|[<- <-]]; reflexivity|]).
    destruct Hin.
Qed.

Lemma same_letter_of_lower c : same_letter c (Py.lower_ascii c) = true.
Proof. destruct c as [[] [] [] [] [] [] [] []]; reflexivity. Qed.

Lemma same_letters_lower a : forall b,
  same_letters a b = true -> Py.lower a = Py.lower b.
Proof.
  induction a as [|c a IH]; intros [|d b]; simpl; try done.
  rewrite andb_true_iff. intros [Hc Hab].
  by rewrite (same_letter_lower _ _ Hc), (IH _ Hab).
Qed.

Lemma same_letters_of_lower a : same_letters a (Py.lower a) = true.
Proof.
  induction a as [|c a IH]; simpl; [done|].
  by rewrite same_letter_of_lower, IH.
Qed.

Lemma lower_app a b : Py.lower (a +:+ b) = Py.lower a +:+ Py.lower b.
Proof.
  induction a as [|c a IH]; [done|].
  rewrite append_String. simpl. by rewrite IH, append_String.
Qed.

Lemma lower_app_inv s : forall a b,
  Py.lower s = a +:+ b ->
  exists s1 s2, s = s1 +:+ s2 /\ Py.lower s1 = a /\ Py.lower s2 = b.
Proof.
  induction s as [|c s IH]; intros a b H.
  - destruct a as [|c' a]; [|discriminate].
    rewrite append_empty_l in H. by exists EmptyString, EmptyString.
  - destruct a as [|c' a].
    + rewrite append_empty_l in H. by exists EmptyString, (String c s).
    + rewrite append_String in H. simpl in H. injection H as Hc Hs.
      destruct (IH _ _ Hs) as (s1 & s2 & -> & H1 & H2).
      exists (String c s1), s2. rewrite append_String. simpl.
      by rewrite Hc, H1.
Qed.

(** Searching a small-letter word in the lower-cased name is searching it
    in the name whatever the case. *)
Lemma str_in_lower needle hay :
  Py.lower needle = needle ->
  Py.str_in needle (Py.lower hay) = true <-> contains_any_case needle hay.
Proof.
  intros Hlow. rewrite str_in_spec. split.
  - intros (pre & post & H).
    apply lower_app_inv in H as (s1 & s23 & -> & H1 & H23).
    apply lower_app_inv in H23 as (s2 & s3 & -> & H2 & H3).
    exists s1, s2, s3. split; [done|].
    rewrite <- H2. apply same_letters_of_lower.
  - intros (pre & mid & post & -> & Hmid).
    apply same_letters_lower in Hmid. rewrite Hlow in Hmid.
    exists (Py.lower pre), (Py.lower post).
    by rewrite !lower_app, Hmid.
Qed.

Lemma is_date_name_spec col : is_date_name col = true <-> date_named col.
Proof.
  unfold is_date_name, date_named.
  by rewrite orb_true_iff, !str_in_lower.
Qed.


(** ** The type coercion of the loader *)

(** C9: for every fetched record set the conversion loop returns a frame
    with the same number of rows, the same column labels in the same
    order, and in every column as many cells as before; only the cells of
    existing columns can change. *)
Theorem coercion_keeps_shape `{P : Library} (records : list record) :
  exists df,
    auto_convert (DataFrame_of_records records) = Py.Ok df /\
    index df = index (DataFrame_of_records records) /\
    columns df = columns (DataFrame_of_records records) /\
    forall col s, getitem (DataFrame_of_records records) col = Py.Ok s ->
      exists s', getitem df col = Py.Ok s' /\
                 Series_len s' = Series_len s /\
                 Series_len s' = length records.
Proof.
  destruct (auto_convert_getitem records) as (df & Hrun & Hidx & Hk & _ & Hget).
  exists df. rewrite records_columns. repeat split; try done.
  intros col s Hs. exists (convert_series col s).
  split; [by apply Hget|]. rewrite convert_series_len. split; [done|].
  apply getitem_Ok in Hs.
  assert (Hc : In col (union_keys records)).
  { rewrite <- records_columns. by eapply dict_get_keys. }
  rewrite (records_get records col Hc) in Hs. injection Hs as <-.
  apply column_of_len.
Qed.




(** ** The scenarios of the loader *)

Lemma fetch_holds `{P : Library} client url name rs :
  sheet_holds client url name rs ->
  fetch client url name = auto_convert (DataFrame_of_records rs).
Proof.
  intros (sheet & ws & Hopen & Hws & Hrs). unfold fetch.
  rewrite Hopen. simpl. rewrite Hws. simpl. by rewrite Hrs.
Qed.

Lemma fetch_raises_spec `{P : Library} client url name e :
  fetch_raises client url name e -> fetch client url name = Py.Raise e.
Proof.
  unfold fetch.
  intros [Hopen|[(sheet & Hopen & Hws)|(sheet & ws & Hopen & Hws & Hrs)]].
  - by rewrite Hopen.
  - rewrite Hopen. simpl. by rewrite Hws.
  - rewrite Hopen. simpl. rewrite Hws. simpl. by rewrite Hrs.
Qed.

(** C7: when the worksheet holds the two records of the scenario, and
    pandas reads the two texts of "Tanggal" as dates of one time zone or of
    none and not as numbers, the loader returns a frame of 2 rows and 3
    columns whose column "Tanggal" has the dtype datetime64 and whose
    column "Penjualan" has the dtype int64. *)
Theorem sales_sheet_loaded `{P : Library} (w : World) (client : Client)
  (url name : string) rc es rc' tz ts :
  str_to_number "2024-01-01" = None ->
  objects_to_datetime [PStr "2024-01-01"; PStr "2024-01-02"]
    = Some (Stamps tz ts) ->
  connect_to_gsheet w rc = (Some client, es, rc') ->
  sheet_holds client url name sales_sheet ->
  exists df,
    load_data_body w url name rc = (Some df, es, rc') /\
    index df = 2%nat /\
    columns df = ["Tanggal"; "Penjualan"; "Produk"] /\
    (exists s, getitem df "Tanggal" = Py.Ok s /\ Series_dtype s = datetime64) /\
    (exists s, getitem df "Penjualan" = Py.Ok s /\ Series_dtype s = int64 /\
               is_numeric_dtype (Series_dtype s) = true).
Proof.
  intros Hnum Hdates Hconnect Hsheet.
  destruct (auto_convert_getitem sales_sheet)
    as (df & Hrun & Hidx & Hk & _ & Hget).
  exists df. unfold load_data_body.
  rewrite Hconnect, (fetch_holds _ _ _ _ Hsheet), Hrun.
  repeat split; [done|done| |].
  - exists (SDatetime64 tz ts). split; [|done].
    rewrite (Hget "Tanggal" (SObject [PStr "2024-01-01"; PStr "2024-01-02"]));
      [|reflexivity].
    unfold convert_series, after_date, after_numeric.
    change (is_date_name "Tanggal") with true. simpl.
    rewrite Hnum. simpl. by rewrite Hdates.
  - exists (SInt64 [5000000; 7500000]). split; [|done].
    by rewrite (Hget "Penjualan" (SInt64 [5000000; 7500000])).
Qed.

(** The scenario on the reference library, from a session with cold
    caches. *)
Lemma sales_sheet_loaded_witness :
  exists df,
    load_data_body (P := Reference.library)
      (world_of (Py.Ok (serving "u" "Sheet1" sales_sheet)) "u" "Sheet1"
                false false) "u" "Sheet1" None
    = (Some df, [], Some (Some (serving "u" "Sheet1" sales_sheet), [])) /\
    index df = 2%nat /\
    columns df = ["Tanggal"; "Penjualan"; "Produk"] /\
    (exists s, getitem df "Tanggal" = Py.Ok s /\ Series_dtype s = datetime64) /\
    (exists s, getitem df "Penjualan" = Py.Ok s /\ Series_dtype s = int64 /\
               is_numeric_dtype (Series_dtype s) = true).
Proof.
  apply (sales_sheet_loaded (P := Reference.library) _
           (serving "u" "Sheet1" sales_sheet) _ _ _ _ _ None
           [1704067200000000000; 1704153600000000000]).
  - reflexivity.
  - vm_compute. reflexivity.
  - reflexivity.
  - eexists _, _. repeat split; reflexivity.
Defined.

(** ** The memoised loader *)

Section Cache.
Context `{P : Library}.

(** A miss: the body runs at the clock of the session and its result is
    stored under the key. *)
Lemma load_data_miss w url name s v es rc :
  is_fresh s url name = false ->
  load_data_body w url name (cache_resource s) = (v, es, rc) ->
  load_data w url name s =
    (Some v,
     mkSession (clock s)
               (<[(url, name) := mkEntry v es (clock s)]> (cache_data s))
               rc (shown s ++ es)).
Proof.
  unfold is_fresh, load_data, cached_data. intros Hfresh Hbody.
  rewrite Hbody. destruct (cache_data s !! (url, name)) as [e|]; [|done].
  by rewrite Hfresh.
Qed.

(** A hit: the stored value is returned and the stored elements are shown;
    the body does not run, whatever the sheet holds by now. *)
Lemma load_data_hit w url name s e :
  cache_data s !! (url, name) = Some e ->
  clock s < e_stored e + ttl ->
  load_data w url name s =
    (Some (e_value e),
     mkSession (clock s) (cache_data s) (cache_resource s)
               (shown s ++ e_replay e)).
Proof.
  unfold load_data, cached_data. intros Hget Hfresh. rewrite Hget.
  destruct (Z.ltb_spec (clock s) (e_stored e + ttl)) as [_|Hge]; [|lia].
  by destruct (load_data_body w url name (cache_resource s)) as [[? ?] ?].
Qed.

End Cache.

(** ** A run of the script *)

Section Run.
Context `{P : Library}.


(** Without a click on the refresh button and with a locator entered, a
    run is the banner, the loader, the page for its result and the
    footer. *)
Lemma main_loads w s :
  refresh_now w = false -> sheet_url w <> "" ->
  main w s =
  ((df <- load_data w (sheet_url w) (sheet_name w);; render w df);; footer)
    (at_load s).
Proof.
  intros Hnow Hurl. unfold main. unfold Streamlit.bind at 1 2.
  unfold show at 1. rewrite Hnow. unfold ret at 1.
  destruct (String.eqb_spec (sheet_url w) "") as [?|_]; [done|]. reflexivity.
Qed.

(** A miss in [at_load s] is a miss in [s]: the banner does not touch the
    cache. *)
Lemma main_miss w s v es rc :
  refresh_now w = false -> sheet_url w <> "" ->
  is_fresh s (sheet_url w) (sheet_name w) = false ->
  load_data_body w (sheet_url w) (sheet_name w) (cache_resource s)
    = (v, es, rc) ->
  main w s =
  (render w v;; footer)
    (mkSession (clock s)
       (<[(sheet_url w, sheet_name w) := mkEntry v es (clock s)]> (cache_data s))
       rc (shown s ++ banner ++ es)).
Proof.
  intros Hnow Hurl Hfresh Hbody. rewrite (main_loads _ _ Hnow Hurl).
  unfold Streamlit.bind at 1 2.
  rewrite (load_data_miss w _ _ (at_load s) v es rc Hfresh Hbody).
  unfold Streamlit.bind, at_load. simpl. by rewrite <- List.app_assoc.
Qed.

End Run.

(** ** Failures and empty sheets *)

(** C3: when the client is there and the resolution of the locator, the
    resolution of the sheet or the fetch raises, the loader catches the
    exception where it occurs, shows one message with its text, whichever
    of the three calls raised, and returns no data; the run that called it
    (the loader was not answered from the cache) then shows the error
    message after it, draws no table, offers no download, and ends with
    the footer. *)
Theorem fetch_error_shown `{P : Library} (w : World) (s : session)
  (client : Client) (e : string) rc' :
  refresh_now w = false -> sheet_url w <> "" ->
  is_fresh s (sheet_url w) (sheet_name w) = false ->
  connect_to_gsheet w (cache_resource s) = (Some client, [], rc') ->
  fetch_raises client (sheet_url w) (sheet_name w) e ->
  load_data_body w (sheet_url w) (sheet_name w) (cache_resource s)
    = (None, [ st_error ("Error loading data: " +:+ e) ], rc') /\
  exists s',
    main w s = (Some tt, s') /\
    shown s' =
      shown s ++ banner ++
      [ st_error ("Error loading data: " +:+ e);
        st_error "❌ Gagal memuat data. Cek URL dan permissions!" ] ++
      closing /\
    forallb (fun ev => negb (is_table ev))
            (banner ++
             [ st_error ("Error loading data: " +:+ e);
               st_error "❌ Gagal memuat data. Cek URL dan permissions!" ] ++
             closing) = true.
Proof.
  intros Hnow Hurl Hfresh Hconnect Hraise.
  assert (Hbody : load_data_body w (sheet_url w) (sheet_name w)
                    (cache_resource s)
                  = (None, [ st_error ("Error loading data: " +:+ e) ], rc')).
  { unfold load_data_body.
    by rewrite Hconnect, (fetch_raises_spec _ _ _ _ Hraise). }
  split; [done|].
  rewrite (main_miss _ _ _ _ _ Hnow Hurl Hfresh Hbody).
  eexists. split; [reflexivity|]. simpl. split; [|done].
  by rewrite <- !List.app_assoc.
Qed.

(** C6: when the worksheet is found and holds no record, the loader
    returns the frame without rows and columns and shows no message; the
    run that called it then shows the warning for an empty sheet, and no
    error. *)
Theorem empty_sheet_is_no_error `{P : Library} (w : World) (s : session)
  (client : Client) rc' :
  refresh_now w = false -> sheet_url w <> "" ->
  is_fresh s (sheet_url w) (sheet_name w) = false ->
  connect_to_gsheet w (cache_resource s) = (Some client, [], rc') ->
  sheet_holds client (sheet_url w) (sheet_name w) [] ->
  load_data_body w (sheet_url w) (sheet_name w) (cache_resource s)
    = (Some (mkDataFrame 0 []), [], rc') /\
  exists s',
    main w s = (Some tt, s') /\
    shown s' =
      shown s ++ banner ++
      [ st_warning "📋 Sheet kosong atau tidak ada data" ] ++ closing /\
    forallb (fun ev => negb (is_error ev))
            (banner ++ [ st_warning "📋 Sheet kosong atau tidak ada data" ] ++
             closing) = true.
Proof.
  intros Hnow Hurl Hfresh Hconnect Hsheet.
  assert (Hbody : load_data_body w (sheet_url w) (sheet_name w)
                    (cache_resource s)
                  = (Some (mkDataFrame 0 []), [], rc')).
  { unfold load_data_body. by rewrite Hconnect, (fetch_holds _ _ _ _ Hsheet). }
  split; [done|].
  rewrite (main_miss _ _ _ _ _ Hnow Hurl Hfresh Hbody).
  eexists. split; [reflexivity|]. simpl. split; [|done].
  by rewrite <- !List.app_assoc.
Qed.

(** A sheet name that the spreadsheet does not have. *)
Lemma fetch_error_shown_witness :
  exists s',
    main (P := Reference.library)
      (world_of (Py.Ok (serving "u" "Sheet1" sales_sheet)) "u" "Sheet2"
                false false) (new_session 0) = (Some tt, s') /\
    shown s' =
      banner ++
      [ st_error "Error loading data: Sheet2";
        st_error "❌ Gagal memuat data. Cek URL dan permissions!" ] ++
      closing.
Proof.
  destruct (fetch_error_shown (P := Reference.library)
              (world_of (Py.Ok (serving "u" "Sheet1" sales_sheet)) "u" "Sheet2"
                        false false)
              (new_session 0) (serving "u" "Sheet1" sales_sheet) "Sheet2"
              (Some (Some (serving "u" "Sheet1" sales_sheet), [])))
    as (_ & s' & Hrun & Hshown & _).
  - reflexivity.
  - discriminate.
  - reflexivity.
  - reflexivity.
  - right. left. eexists. split; reflexivity.
  - exists s'. split; [exact Hrun|exact Hshown].
Defined.

(** A worksheet without records. *)
Lemma empty_sheet_is_no_error_witness :
  exists s',
    main (P := Reference.library)
      (world_of (Py.Ok (serving "u" "Sheet1" [])) "u" "Sheet1" false false)
      (new_session 0) = (Some tt, s') /\
    shown s' =
      banner ++ [ st_warning "📋 Sheet kosong atau tidak ada data" ] ++ closing.
Proof.
  destruct (empty_sheet_is_no_error (P := Reference.library)
              (world_of (Py.Ok (serving "u" "Sheet1" [])) "u" "Sheet1"
                        false false)
              (new_session 0) (serving "u" "Sheet1" [])
              (Some (Some (serving "u" "Sheet1" []), [])))
    as (_ & s' & Hrun & Hshown & _).
  - reflexivity.
  - discriminate.
  - reflexivity.
  - reflexivity.
  - eexists _, _. repeat split; reflexivity.
  - exists s'. split; [exact Hrun|exact Hshown].
Defined.

(** ** Memoisation and invalidation *)

(** C4: a call to the loader leaves under the key (locator, sheet name) an
    entry with the value it returned, stamped with the time of the call
    when the body ran; any later call with the same key while the entry is
    younger than 300 seconds returns the same value without running the
    body (whatever the sheet holds by then) and leaves both caches as they
    were; after [st.cache_data.clear()] the key is not fresh any more. *)
Theorem repeated_load_is_memoised `{P : Library} (w1 w2 : World)
  (url name : string) (s : session) (t2 : Z) (seen : list event) :
  exists v e s1,
    load_data w1 url name s = (Some v, s1) /\
    cache_data s1 !! (url, name) = Some e /\
    e_value e = v /\
    (is_fresh s url name = false -> e_stored e = clock s) /\
    (t2 < e_stored e + 300 ->
     exists s2,
       load_data w2 url name
         (mkSession t2 (cache_data s1) (cache_resource s1) seen)
       = (Some v, s2) /\
       cache_data s2 = cache_data s1 /\
       cache_resource s2 = cache_resource s1 /\
       shown s2 = seen ++ e_replay e) /\
    is_fresh (snd (cache_data_clear
                     (mkSession t2 (cache_data s1) (cache_resource s1) seen)))
             url name = false.
Proof.
  destruct (is_fresh s url name) eqn:Hfresh.
  - unfold is_fresh in Hfresh.
    destruct (cache_data s !! (url, name)) as [e|] eqn:He; [|done].
    apply Z.ltb_lt in Hfresh.
    exists (e_value e), e. eexists. split; [by apply load_data_hit|]. simpl.
    repeat split; try done.
    intros Ht2. eexists. split; [by apply load_data_hit|]. done.
  - destruct (load_data_body w1 url name (cache_resource s))
      as [[v es] rc] eqn:Hbody.
    exists v, (mkEntry v es (clock s)). eexists.
    split; [by apply load_data_miss|]. simpl.
    rewrite lookup_insert_eq. repeat split; try done.
    intros Ht2. eexists. split.
    + apply (load_data_hit w2 url name _ (mkEntry v es (clock s))); simpl;
        [apply lookup_insert_eq|done].
    + done.
Qed.

(** C10: a click on the refresh button empties the whole data cache, the
    entries of every locator and sheet name and not only those of the
    values entered, and stops the run for a re-run before anything but
    the banner is shown. *)
Theorem refresh_button_clears_all `{P : Library} (w : World) (s : session) :
  refresh_now w = true ->
  exists s',
    main w s = (None, s') /\
    cache_data s' = ∅ /\
    (forall url name, cache_data s' !! (url, name) = None) /\
    (forall url name, is_fresh s' url name = false) /\
    cache_resource s' = cache_resource s /\
    shown s' = shown s ++ banner.
Proof.
  intros Hnow. eexists. unfold main, Streamlit.bind.
  unfold show at 1. rewrite Hnow. simpl. repeat split; try done.
Qed.

(** The click drops an entry stored for another locator and sheet. *)
Lemma refresh_button_clears_all_witness :
  exists s',
    main (P := Reference.library)
      (world_of (Py.Ok (serving "u" "Sheet1" sales_sheet)) "u" "Sheet1"
                false true)
      (mkSession 10 {[ ("v", "Sheet9") := mkEntry None [] 0 ]} None [])
    = (None, s') /\
    cache_data s' !! ("v", "Sheet9") = None.
Proof.
  destruct (refresh_button_clears_all (P := Reference.library)
              (world_of (Py.Ok (serving "u" "Sheet1" sales_sheet)) "u" "Sheet1"
                        false true)
              (mkSession 10 {[ ("v", "Sheet9") := mkEntry None [] 0 ]} None []))
    as (s' & Hrun & _ & Hall & _).
  - reflexivity.
  - exists s'. split; [exact Hrun|apply Hall].
Defined.

(** ** The countdown *)

Lemma countdown_turn_spec seconds s :
  countdown_turn seconds s =
    (Some tt,
     mkSession (clock s + 1) (cache_data s) (cache_resource s)
               (shown s ++ countdown_events seconds)).
Proof.
  unfold countdown_turn, Py.divmod, Streamlit.bind, show, sleep,
    countdown_events.
  simpl. by rewrite <- List.app_assoc.
Qed.

(** The loop has no way out: it takes every turn of its range. *)
Lemma countdown_loop xs : forall s,
  for_each xs countdown_turn s =
    (Some tt,
     mkSession (clock s + Z.of_nat (length xs)) (cache_data s)
               (cache_resource s)
               (shown s ++ flat_map countdown_events xs)).
Proof.
  induction xs as [|x xs IH]; intros s.
  - simpl. unfold ret. destruct s; simpl. by rewrite Z.add_0_r, List.app_nil_r.
  - cbn [for_each]. unfold Streamlit.bind at 1.
    rewrite countdown_turn_spec, IH. cbn [clock cache_data cache_resource shown].
    do 2 f_equal; [cbn [length]; lia|].
    cbn [flat_map]. by rewrite List.app_assoc.
Qed.

(** C8: with auto-refresh on, the block takes exactly 300 turns, for 300
    seconds down to 1; each turn shows the minutes and seconds that are
    left and sleeps one second; nothing read from outside can end the loop
    earlier; after it the data cache is empty and the run stops for a
    re-run. *)
Theorem countdown_takes_300_turns (w : World) (s : session) :
  auto_refresh w = true ->
  Py.range 300 0 (-1) = List.map Z.of_nat (List.rev (List.seq 1 300)) /\
  length (Py.range 300 0 (-1)) = 300%nat /\
  exists s',
    auto_refresh_block w s = (None, s') /\
    cache_data s' = ∅ /\
    clock s' = clock s + 300 /\
    shown s' =
      (shown s ++
       [ st_info "🔄 Auto-refresh aktif. Data akan diperbarui otomatis setiap 5 menit." ])
      ++ flat_map countdown_events (Py.range 300 0 (-1)) /\
    length (List.filter is_sleep
              (flat_map countdown_events (Py.range 300 0 (-1)))) = 300%nat /\
    List.hd_error (flat_map countdown_events (Py.range 300 0 (-1))) =
      Some (placeholder_text "⏱️ Refresh berikutnya dalam: 05:00") /\
    List.last (flat_map countdown_events (Py.range 300 0 (-1))) (time_sleep 0) =
      time_sleep 1 /\
    List.nth_error (flat_map countdown_events (Py.range 300 0 (-1))) 598 =
      Some (placeholder_text "⏱️ Refresh berikutnya dalam: 00:01").
Proof.
  intros Hauto.
  split; [by vm_compute|]. split; [by vm_compute|].
  eexists. unfold auto_refresh_block. rewrite Hauto.
  unfold Streamlit.bind at 1. unfold show at 1.
  unfold Streamlit.bind at 1. rewrite countdown_loop.
  unfold Streamlit.bind, cache_data_clear, rerun.
  cbn [clock cache_data cache_resource shown].
  split; [reflexivity|]. cbn [clock cache_data cache_resource shown].
  repeat split; by vm_compute.
Qed.

(** The block run from a new session ends 300 seconds later. *)
Lemma countdown_takes_300_turns_witness :
  exists s',
    auto_refresh_block
      (world_of (Py.Ok (serving "u" "Sheet1" sales_sheet)) "u" "Sheet1"
                true false) (new_session 0) = (None, s') /\
    clock s' = 300 /\ cache_data s' = ∅.
Proof.
  destruct (countdown_takes_300_turns
              (world_of (Py.Ok (serving "u" "Sheet1" sales_sheet)) "u" "Sheet1"
                        true false) (new_session 0))
    as (_ & _ & s' & Hrun & Hcache & Hclock & _).
  - reflexivity.
  - exists s'. split; [exact Hrun|]. split; [exact Hclock|exact Hcache].
Defined.


(** ** Writing and reading the delimited text *)

Lemma append_assoc a b c : (a +:+ b) +:+ c = a +:+ (b +:+ c).
Proof.
  induction a as [|x a IH]; [done|]. by rewrite !append_String, IH.
Qed.





Section RoundTrip.
Variable quote_cr : bool.





















End RoundTrip.


(** ** The export *)





Section Cells.
Context `{P : Library}.





End Cells.




(** ** Further properties of the script *)

(** *** What a page shows *)

Section Pages.
Context `{P : Library}.

Lemma empty_false_rows df : empty df = false -> (index df - 1 + 1 = index df)%nat.
Proof.
  unfold empty. rewrite orb_false_iff, Nat.eqb_neq. lia.
Qed.

(** Lines 99-246 for a frame with rows and columns that the charts and
    the analytics are drawn for, auto-refresh off. *)
Lemma render_data_static w df s :
  empty df = false -> charts_and_analytics df = Py.Ok tt ->
  auto_refresh w = false ->
  render w (Some df) s =
    (Some tt,
     mkSession (clock s) (cache_data s) (cache_resource s)
               (shown s ++ data_page w df)).
Proof.
  intros Hempty Hdraw Hauto. unfold render. rewrite Hempty. cbn [negb].
  unfold tabs_charts_analytics. rewrite Hdraw.
  unfold Streamlit.bind, quick_stats, tab_data, auto_refresh_block, show, ret.
  rewrite Hauto, (empty_false_rows _ Hempty).
  cbn [clock cache_data cache_resource shown].
  unfold data_page, data_tab_page. by rewrite <- !List.app_assoc.
Qed.

(** The same when the drawing code raises: the run ends at the exception,
    whatever the auto-refresh box says. *)
Lemma render_data_raises w df s e :
  empty df = false -> charts_and_analytics df = Py.Raise e ->
  render w (Some df) s =
    (None,
     mkSession (clock s) (cache_data s) (cache_resource s)
               (shown s ++ data_tab_page w df ++
                [ st_interrupted df; st_exception e ])).
Proof.
  intros Hempty Hdraw. unfold render. rewrite Hempty. cbn [negb].
  unfold tabs_charts_analytics. rewrite Hdraw.
  unfold Streamlit.bind, quick_stats, tab_data, uncaught, show, ret.
  rewrite (empty_false_rows _ Hempty).
  cbn [clock cache_data cache_resource shown].
  unfold data_tab_page. by rewrite <- !List.app_assoc.
Qed.

(** The same with auto-refresh on: the countdown, the clearing of the data
    cache and the re-run follow. *)
Lemma render_data_refresh w df s :
  empty df = false -> charts_and_analytics df = Py.Ok tt ->
  auto_refresh w = true ->
  render w (Some df) s =
    (None,
     mkSession (clock s + 300) ∅ (cache_resource s)
               (shown s ++ data_page w df ++
                refresh_notice :: flat_map countdown_events (Py.range 300 0 (-1)))).
Proof.
  intros Hempty Hdraw Hauto. unfold render. rewrite Hempty. cbn [negb].
  unfold tabs_charts_analytics. rewrite Hdraw.
  unfold auto_refresh_block. rewrite Hauto.
  assert (Hlen : Z.of_nat (length (Py.range 300 0 (-1))) = 300) by by vm_compute.
  remember (Py.range 300 0 (-1)) as turns eqn:Hturns.
  unfold Streamlit.bind, quick_stats, tab_data, show, cache_data_clear, rerun.
  rewrite countdown_loop.
  cbn [clock cache_data cache_resource shown].
  rewrite Hlen, (empty_false_rows _ Hempty).
  do 2 f_equal. unfold data_page, data_tab_page, refresh_notice.
  rewrite <- !List.app_assoc. reflexivity.
Qed.

Lemma render_none w s :
  render w None s =
    (Some tt,
     mkSession (clock s) (cache_data s) (cache_resource s)
       (shown s ++ [ st_error "❌ Gagal memuat data. Cek URL dan permissions!" ])).
Proof. reflexivity. Qed.

Lemma render_empty w df s :
  empty df = true ->
  render w (Some df) s =
    (Some tt,
     mkSession (clock s) (cache_data s) (cache_resource s)
       (shown s ++ [ st_warning "📋 Sheet kosong atau tidak ada data" ])).
Proof. intros Hempty. unfold render. by rewrite Hempty. Qed.

Lemma footer_spec s :
  footer s =
    (Some tt,
     mkSession (clock s) (cache_data s) (cache_resource s) (shown s ++ closing)).
Proof. reflexivity. Qed.

(** A run answered from the cache: the stored elements are shown again
    and the page is drawn for the stored value. *)
Lemma main_hit w s e :
  refresh_now w = false -> sheet_url w <> "" ->
  cache_data s !! (sheet_url w, sheet_name w) = Some e ->
  clock s < e_stored e + ttl ->
  main w s =
  (render w (e_value e);; footer)
    (mkSession (clock s) (cache_data s) (cache_resource s)
               (shown s ++ banner ++ e_replay e)).
Proof.
  intros Hnow Hurl He Hfresh. rewrite (main_loads _ _ Hnow Hurl).
  unfold Streamlit.bind at 1 2.
  rewrite (load_data_hit w _ _ (at_load s) e He Hfresh).
  unfold Streamlit.bind, at_load. simpl. by rewrite <- List.app_assoc.
Qed.

(** A run without a locator. *)
Lemma main_welcome w s :
  refresh_now w = false -> sheet_url w = "" ->
  main w s =
    (Some tt,
     mkSession (clock s) (cache_data s) (cache_resource s)
               (shown s ++ banner ++ welcome_page ++ closing)).
Proof.
  intros Hnow Hurl. unfold main, welcome, footer, Streamlit.bind, show, ret.
  rewrite Hnow, Hurl. cbn [String.eqb negb clock cache_data cache_resource shown].
  change sample_data with sample_table.
  unfold welcome_page, closing, banner. by rewrite <- !List.app_assoc.
Qed.

End Pages.

(** *** The connection and the messages of the loader *)

(** X7: from a resource cache that is empty or was filled by
    [connect_to_gsheet], the loader either returns a frame and shows
    nothing, or returns no data and shows exactly one error message; the
    resource cache it leaves is again of that kind. *)
Theorem loader_reports_once `{P : Library} (w : World) (url name : string)
  rc v es rc' :
  resource_ok rc ->
  load_data_body w url name rc = (v, es, rc') ->
  resource_ok rc' /\
  ((exists df, v = Some df /\ es = []) \/
   (v = None /\ exists msg, es = [ st_error msg ])).
Proof.
  intros Hrc Hbody. unfold load_data_body, connect_to_gsheet in Hbody.
  assert (Hconn : exists w0,
            cached_resource (connect_to_gsheet_body w) rc =
              (fst (connect_to_gsheet_body w0), snd (connect_to_gsheet_body w0),
               Some (connect_to_gsheet_body w0))).
  { destruct Hrc as [->|[w0 ->]]; [by exists w|exists w0].
    unfold cached_resource. by destruct (connect_to_gsheet_body w0). }
  destruct Hconn as [w0 Hconn]. rewrite Hconn in Hbody.
  clear Hconn Hrc.
  assert (Hkind : forall x, connect_to_gsheet_body w0 = x ->
                            resource_ok (Some x))
    by (intros x <-; right; by exists w0).
  unfold connect_to_gsheet_body in Hbody, Hkind.
  destruct (authorize w0) as [client|e]; simpl in Hbody.
  - destruct (fetch client url name) as [df|e];
      injection Hbody as Hv Hes Hrc'; subst v es rc'.
    + split; [by apply Hkind|]. left. by exists df.
    + split; [by apply Hkind|]. right. split; [done|].
      by exists ("Error loading data: " +:+ e).
  - injection Hbody as Hv Hes Hrc'; subst v es rc'.
    split; [by apply Hkind|]. right. split; [done|].
    by exists ("Error koneksi: " +:+ e).
Qed.

(** A failing sheet name from cold caches: one message, no data. *)
Lemma loader_reports_once_witness :
  exists v es rc',
    load_data_body (P := Reference.library)
      (world_of (Py.Ok (serving "u" "Sheet1" sales_sheet)) "u" "Sheet2"
                false false) "u" "Sheet2" None = (v, es, rc') /\
    resource_ok rc' /\
    ((exists df, v = Some df /\ es = []) \/
     (v = None /\ exists msg, es = [ st_error msg ])).
Proof.
  eexists _, _, _. split; [reflexivity|].
  apply (loader_reports_once (P := Reference.library)
           (world_of (Py.Ok (serving "u" "Sheet1" sales_sheet)) "u" "Sheet2"
                     false false) "u" "Sheet2" None).
  - by left.
  - reflexivity.
Defined.

(** X1: when the service account is refused, on a first connection and
    without a fresh cache entry, the loader opens no spreadsheet: it shows
    the connection error alone and returns no data, the refusal is what
    the resource cache keeps, and the run shows the connection error, the
    load error, no table, and the footer. *)
Theorem refused_credentials_shown `{P : Library} (w : World) (s : session)
  (e : string) :
  refresh_now w = false -> sheet_url w <> "" ->
  is_fresh s (sheet_url w) (sheet_name w) = false ->
  cache_resource s = None ->
  authorize w = Py.Raise e ->
  load_data_body w (sheet_url w) (sheet_name w) (cache_resource s) =
    (None, [ st_error ("Error koneksi: " +:+ e) ],
     Some (None, [ st_error ("Error koneksi: " +:+ e) ])) /\
  exists s',
    main w s = (Some tt, s') /\
    shown s' =
      shown s ++ banner ++
      [ st_error ("Error koneksi: " +:+ e);
        st_error "❌ Gagal memuat data. Cek URL dan permissions!" ] ++ closing /\
    cache_resource s' = Some (None, [ st_error ("Error koneksi: " +:+ e) ]) /\
    clock s' = clock s.
Proof.
  intros Hnow Hurl Hfresh Hrc Hauth.
  assert (Hbody : load_data_body w (sheet_url w) (sheet_name w)
                    (cache_resource s) =
                  (None, [ st_error ("Error koneksi: " +:+ e) ],
                   Some (None, [ st_error ("Error koneksi: " +:+ e) ]))).
  { unfold load_data_body, connect_to_gsheet, cached_resource,
      connect_to_gsheet_body. by rewrite Hrc, Hauth. }
  split; [done|].
  rewrite (main_miss _ _ _ _ _ Hnow Hurl Hfresh Hbody).
  eexists. split; [reflexivity|]. simpl. repeat split.
  by rewrite <- !List.app_assoc.
Qed.

Lemma refused_credentials_shown_witness :
  exists s',
    main (P := Reference.library)
      (world_of (Py.Raise "invalid_grant") "u" "Sheet1" false false)
      (new_session 0) = (Some tt, s') /\
    shown s' =
      banner ++
      [ st_error "Error koneksi: invalid_grant";
        st_error "❌ Gagal memuat data. Cek URL dan permissions!" ] ++ closing.
Proof.
  destruct (refused_credentials_shown (P := Reference.library)
              (world_of (Py.Raise "invalid_grant") "u" "Sheet1" false false)
              (new_session 0) "invalid_grant")
    as (_ & s' & Hrun & Hshown & _).
  - reflexivity.
  - discriminate.
  - reflexivity.
  - reflexivity.
  - reflexivity.
  - exists s'. split; [exact Hrun|exact Hshown].
Defined.

(** X2: a refused connection outlives the refresh button.  Once the
    resource cache holds a failed connection, a click on the button
    empties the data cache only, and the run that follows loads nothing
    and shows the stored connection error again, whatever the credentials
    and the sheet are by then. *)
Theorem refused_connection_survives_refresh `{P : Library}
  (click w : World) (s : session) (es0 : list event) (t : Z) :
  cache_resource s = Some (None, es0) ->
  refresh_now click = true ->
  refresh_now w = false -> sheet_url w <> "" ->
  exists s1 s2,
    main click s = (None, s1) /\
    main w (mkSession t (cache_data s1) (cache_resource s1) []) = (Some tt, s2) /\
    shown s2 =
      banner ++ es0 ++
      [ st_error "❌ Gagal memuat data. Cek URL dan permissions!" ] ++ closing /\
    cache_resource s2 = Some (None, es0) /\
    cache_data s2 !! (sheet_url w, sheet_name w) = Some (mkEntry None es0 t).
Proof.
  intros Hrc Hclick Hnow Hurl.
  assert (Hrun1 : main click s =
            (None, mkSession (clock s) ∅ (cache_resource s) (shown s ++ banner))).
  { unfold main, Streamlit.bind. unfold show at 1. by rewrite Hclick. }
  eexists _, _. split; [exact Hrun1|].
  cbn [cache_data cache_resource].
  assert (Hbody : load_data_body w (sheet_url w) (sheet_name w)
                    (cache_resource s) = (None, es0, Some (None, es0))).
  { unfold load_data_body, connect_to_gsheet, cached_resource. by rewrite Hrc. }
  rewrite (main_miss w (mkSession t ∅ (cache_resource s) []) None es0
             (Some (None, es0)) Hnow Hurl); [|done|exact Hbody].
  split; [reflexivity|]. simpl. repeat split.
  - by rewrite <- !List.app_assoc.
  - apply lookup_insert_eq.
Qed.

Lemma refused_connection_survives_refresh_witness :
  exists s1 s2,
    main (P := Reference.library)
      (world_of (Py.Ok (serving "u" "Sheet1" sales_sheet)) "u" "Sheet1"
                false true)
      (mkSession 0 ∅ (Some (None, [ st_error "Error koneksi: x" ])) [])
      = (None, s1) /\
    main (P := Reference.library)
      (world_of (Py.Ok (serving "u" "Sheet1" sales_sheet)) "u" "Sheet1"
                false false)
      (mkSession 5 (cache_data s1) (cache_resource s1) []) = (Some tt, s2) /\
    shown s2 =
      banner ++ [ st_error "Error koneksi: x" ] ++
      [ st_error "❌ Gagal memuat data. Cek URL dan permissions!" ] ++ closing.
Proof.
  destruct (refused_connection_survives_refresh (P := Reference.library)
              (world_of (Py.Ok (serving "u" "Sheet1" sales_sheet)) "u" "Sheet1"
                        false true)
              (world_of (Py.Ok (serving "u" "Sheet1" sales_sheet)) "u" "Sheet1"
                        false false)
              (mkSession 0 ∅ (Some (None, [ st_error "Error koneksi: x" ])) [])
              [ st_error "Error koneksi: x" ] 5)
    as (s1 & s2 & Hrun1 & Hrun2 & Hshown & _).
  - reflexivity.
  - reflexivity.
  - reflexivity.
  - discriminate.
  - exists s1, s2. split; [exact Hrun1|]. split; [exact Hrun2|exact Hshown].
Defined.

(** *** Runs of the script *)

(** X3: without a locator the loader is not called: the run shows the
    welcome page, with its five steps and its one table, the sample of
    three rows and five columns, and the footer; it shows no error, offers
    no download, and leaves the clock and both caches as they were,
    whatever the credentials are. *)
Theorem no_locator_no_load `{P : Library} (w : World) (s : session) :
  refresh_now w = false -> sheet_url w = "" ->
  exists s',
    main w s = (Some tt, s') /\
    shown s' = shown s ++ banner ++ welcome_page ++ closing /\
    forallb (fun ev => negb (is_error ev)) (banner ++ welcome_page ++ closing)
      = true /\
    List.filter is_table (banner ++ welcome_page ++ closing)
      = [ st_dataframe sample_table ] /\
    index sample_table = 3%nat /\
    columns sample_table = [ "Tanggal"; "Penjualan"; "Produk"; "Kota"; "Sales" ] /\
    clock s' = clock s /\
    cache_data s' = cache_data s /\
    cache_resource s' = cache_resource s.
Proof.
  intros Hnow Hurl. rewrite (main_welcome _ _ Hnow Hurl).
  eexists. split; [reflexivity|]. by repeat split.
Qed.

Lemma no_locator_no_load_witness :
  exists s',
    main (P := Reference.library)
      (world_of (Py.Raise "invalid_grant") "" "Sheet1" true false)
      (new_session 7) = (Some tt, s') /\
    cache_resource s' = None /\ clock s' = 7.
Proof.
  destruct (no_locator_no_load (P := Reference.library)
              (world_of (Py.Raise "invalid_grant") "" "Sheet1" true false)
              (new_session 7))
    as (s' & Hrun & _ & _ & _ & _ & _ & Hclock & _ & Hrc).
  - reflexivity.
  - reflexivity.
  - exists s'. split; [exact Hrun|]. split; [exact Hrc|exact Hclock].
Defined.

(** X6: auto-refresh does nothing when there is nothing to show.  When
    the loader, not answered from the cache, returns no data or a frame
    without rows or columns, the run ends normally with the footer even
    with auto-refresh ticked: no countdown, no sleep, no re-run, the clock
    is where it was and the result stays in the data cache. *)
Theorem auto_refresh_needs_data `{P : Library} (w : World) (s : session)
  v es rc :
  refresh_now w = false -> sheet_url w <> "" ->
  is_fresh s (sheet_url w) (sheet_name w) = false ->
  load_data_body w (sheet_url w) (sheet_name w) (cache_resource s)
    = (v, es, rc) ->
  v = None \/ (exists df, v = Some df /\ empty df = true) ->
  exists s' notice,
    main w s = (Some tt, s') /\
    shown s' = shown s ++ banner ++ es ++ [ notice ] ++ closing /\
    is_sleep notice = false /\
    clock s' = clock s /\
    cache_data s' !! (sheet_url w, sheet_name w) = Some (mkEntry v es (clock s)).
Proof.
  intros Hnow Hurl Hfresh Hbody Hv.
  rewrite (main_miss _ _ _ _ _ Hnow Hurl Hfresh Hbody).
  unfold Streamlit.bind.
  destruct Hv as [->|(df & -> & Hempty)].
  - rewrite render_none, footer_spec. eexists _, _. split; [reflexivity|].
    cbn [clock cache_data cache_resource shown].
    split; [by rewrite <- !List.app_assoc|]. split; [done|]. split; [done|].
    apply lookup_insert_eq.
  - rewrite (render_empty _ _ _ Hempty), footer_spec.
    eexists _, _. split; [reflexivity|].
    cbn [clock cache_data cache_resource shown].
    split; [by rewrite <- !List.app_assoc|]. split; [done|]. split; [done|].
    apply lookup_insert_eq.
Qed.

Lemma auto_refresh_needs_data_witness :
  exists s',
    main (P := Reference.library)
      (world_of (Py.Ok (serving "u" "Sheet1" [])) "u" "Sheet1" true false)
      (new_session 0) = (Some tt, s') /\
    clock s' = 0.
Proof.
  destruct (auto_refresh_needs_data (P := Reference.library)
              (world_of (Py.Ok (serving "u" "Sheet1" [])) "u" "Sheet1"
                        true false)
              (new_session 0) (Some (mkDataFrame 0 [])) []
              (Some (Some (serving "u" "Sheet1" []), [])))
    as (s' & notice & Hrun & _ & _ & Hclock & _).
  - reflexivity.
  - discriminate.
  - reflexivity.
  - reflexivity.
  - right. eexists. split; reflexivity.
  - exists s'. split; [exact Hrun|exact Hclock].
Defined.

(** X5: with auto-refresh ticked and a frame with rows and columns
    loaded, for which the charts and the analytics are drawn without an
    exception, the run shows the page, then the notice and the 300 turns
    of the countdown, and stops for a re-run: the footer is never shown,
    the clock has advanced by 300 seconds, and the data cache is empty,
    the entry just stored included. *)
Theorem auto_refresh_run `{P : Library} (w : World) (s : session)
  df es rc :
  refresh_now w = false -> sheet_url w <> "" ->
  is_fresh s (sheet_url w) (sheet_name w) = false ->
  load_data_body w (sheet_url w) (sheet_name w) (cache_resource s)
    = (Some df, es, rc) ->
  empty df = false -> charts_and_analytics df = Py.Ok tt ->
  auto_refresh w = true ->
  exists s',
    main w s = (None, s') /\
    shown s' =
      shown s ++ banner ++ es ++ data_page w df ++
      refresh_notice :: flat_map countdown_events (Py.range 300 0 (-1)) /\
    clock s' = clock s + 300 /\
    cache_data s' = ∅ /\
    cache_resource s' = rc.
Proof.
  intros Hnow Hurl Hfresh Hbody Hempty Hdraw Hauto.
  rewrite (main_miss _ _ _ _ _ Hnow Hurl Hfresh Hbody).
  unfold Streamlit.bind. rewrite (render_data_refresh _ _ _ Hempty Hdraw Hauto).
  eexists. split; [reflexivity|].
  cbn [clock cache_data cache_resource shown]. repeat split.
  by rewrite <- !List.app_assoc.
Qed.

Lemma auto_refresh_run_witness :
  exists s',
    main (P := Reference.library)
      (world_of (Py.Ok (serving "u" "Sheet1" sales_sheet)) "u" "Sheet1"
                true false)
      (new_session 0) = (None, s') /\
    clock s' = 300 /\ cache_data s' = ∅.
Proof.
  destruct (auto_refresh_run (P := Reference.library)
              (world_of (Py.Ok (serving "u" "Sheet1" sales_sheet)) "u" "Sheet1"
                        true false)
              (new_session 0)
              (mkDataFrame 2
                 [ ("Tanggal",
                    SDatetime64 None
                      [1704067200000000000; 1704153600000000000]);
                   ("Penjualan", SInt64 [5000000; 7500000]);
                   ("Produk", SObject [PStr "Laptop"; PStr "Mouse"]) ])
              []
              (Some (Some (serving "u" "Sheet1" sales_sheet), [])))
    as (s' & Hmain & _ & Hclock & Hcache & _).
  - reflexivity.
  - discriminate.
  - reflexivity.
  - vm_compute. reflexivity.
  - reflexivity.
  - reflexivity.
  - reflexivity.
  - exists s'. split; [exact Hmain|]. split; [exact Hclock|exact Hcache].
Defined.

(** *** The labels of a frame built from records *)

Lemma add_keys_In seen r c :
  In c (add_keys seen r) <-> In c seen \/ In c (Py.dict_keys r).
Proof.
  unfold add_keys. revert seen.
  induction (Py.dict_keys r) as [|k ks IH]; intros seen; simpl; [tauto|].
  rewrite IH. destruct (existsb (String.eqb k) seen) eqn:E.
  - apply existsb_exists in E as (x & Hx & Heq). apply String.eqb_eq in Heq.
    subst x. split; [tauto|]. intros [?|[<-|?]]; tauto.
  - rewrite in_app_iff. simpl. tauto.
Qed.

Lemma fold_add_keys_In rs c : forall seen,
  In c (List.fold_left add_keys rs seen) <->
  In c seen \/ exists r, In r rs /\ In c (Py.dict_keys r).
Proof.
  induction rs as [|r rs IH]; intros seen; simpl.
  - split; [tauto|]. intros [?|(r & [] & _)]. done.
  - rewrite IH, add_keys_In. split.
    + intros [[?|?]|(r' & ? & ?)]; eauto 6.
    + intros [?|(r' & [<-|?] & ?)]; eauto 6.
Qed.

Lemma union_keys_In rs c :
  In c (union_keys rs) <-> exists r, In r rs /\ In c (Py.dict_keys r).
Proof.
  unfold union_keys. rewrite fold_add_keys_In. simpl. tauto.
Qed.

(** New keys are appended in their order. *)
Lemma add_keys_fresh r : forall seen,
  List.NoDup (seen ++ Py.dict_keys r) -> add_keys seen r = seen ++ Py.dict_keys r.
Proof.
  unfold add_keys. induction (Py.dict_keys r) as [|k ks IH]; intros seen Hnd;
    simpl.
  - by rewrite List.app_nil_r.
  - assert (E : existsb (String.eqb k) seen = false).
    { destruct (existsb (String.eqb k) seen) eqn:E; [|done].
      apply existsb_exists in E as (x & Hx & Heq). apply String.eqb_eq in Heq.
      subst x. apply List.NoDup_remove_2 in Hnd. exfalso. apply Hnd.
      apply in_app_iff. tauto. }
    rewrite E, IH; rewrite <- List.app_assoc; done.
Qed.

(** Known keys add nothing. *)
Lemma add_keys_known r : forall seen,
  (forall k, In k (Py.dict_keys r) -> In k seen) -> add_keys seen r = seen.
Proof.
  unfold add_keys. induction (Py.dict_keys r) as [|k ks IH]; intros seen Hin;
    simpl; [done|].
  assert (E : existsb (String.eqb k) seen = true).
  { apply existsb_exists. exists k. split; [apply Hin; by left|].
    apply String.eqb_refl. }
  rewrite E. apply IH. intros k' Hk'. apply Hin. by right.
Qed.

Lemma fold_add_keys_known rs : forall seen,
  (forall r, In r rs -> forall k, In k (Py.dict_keys r) -> In k seen) ->
  List.fold_left add_keys rs seen = seen.
Proof.
  induction rs as [|r rs IH]; intros seen Hin; simpl; [done|].
  rewrite add_keys_known by (apply Hin; by left).
  apply IH. intros r' Hr'. apply Hin. by right.
Qed.

(** X9: the frame the loader makes of a sheet has no two columns with the
    same label; its labels are exactly the keys that occur in some record;
    and when the records after the first use no key but those of the first
    (as the records of one header row do), the columns are the keys of the
    first record in their order. *)
Theorem loaded_labels `{P : Library} (records : list record) :
  exists df,
    auto_convert (DataFrame_of_records records) = Py.Ok df /\
    List.NoDup (columns df) /\
    (forall c, In c (columns df) <->
               exists r, In r records /\ In c (Py.dict_keys r)) /\
    (forall r0 rest,
       records = r0 :: rest -> List.NoDup (Py.dict_keys r0) ->
       (forall r, In r rest -> forall k, In k (Py.dict_keys r) ->
                  In k (Py.dict_keys r0)) ->
       columns df = Py.dict_keys r0).
Proof.
  destruct (auto_convert_getitem records) as (df & Hrun & _ & Hk & _).
  exists df. split; [done|]. rewrite Hk.
  split; [apply union_keys_NoDup|]. split; [apply union_keys_In|].
  intros r0 rest -> Hnd Hrest. unfold union_keys. simpl.
  rewrite (add_keys_fresh r0 []) by done. simpl.
  by apply fold_add_keys_known.
Qed.

(** *** The dtypes after loading *)


Lemma mapM_forallb {A B} (f : A -> option B) xs ys :
  mapM f xs = Some ys ->
  forallb (fun x => bool_decide (is_Some (f x))) xs = true.
Proof.
  intros H. apply forallb_forall. intros x Hx. apply bool_decide_eq_true.
  assert (Hall : Forall (is_Some ∘ f) xs) by (apply mapM_is_Some; eauto).
  rewrite List.Forall_forall in Hall. by apply Hall.
Qed.



(** *** A run that shows data *)

(** X4: when the worksheet holds records of which one has a column, and
    the charts and the analytics are drawn for their frame without an
    exception, the run (auto-refresh off, loader not answered from the
    cache) shows the success line, a row count equal to the number of
    records, a column count equal to the number of distinct keys, the tab
    bar, the table, the download, the charts, the analytics and the
    footer, and stores the frame under the key (locator, sheet name) at
    the time of the run. *)
Theorem data_run `{P : Library} (w : World) (s : session) (client : Client)
  (records : list record) rc' :
  refresh_now w = false -> sheet_url w <> "" ->
  is_fresh s (sheet_url w) (sheet_name w) = false ->
  connect_to_gsheet w (cache_resource s) = (Some client, [], rc') ->
  sheet_holds client (sheet_url w) (sheet_name w) records ->
  (exists r c, In r records /\ In c (Py.dict_keys r)) ->
  (forall df, auto_convert (DataFrame_of_records records) = Py.Ok df ->
              charts_and_analytics df = Py.Ok tt) ->
  auto_refresh w = false ->
  exists df s',
    main w s = (Some tt, s') /\
    shown s' = shown s ++ banner ++ data_page w df ++ closing /\
    index df = length records /\
    columns df = union_keys records /\
    cache_data s' !! (sheet_url w, sheet_name w)
      = Some (mkEntry (Some df) [] (clock s)) /\
    clock s' = clock s.
Proof.
  intros Hnow Hurl Hfresh Hconnect Hsheet (r & c & Hr & Hc) Hdraw Hauto.
  destruct (auto_convert_getitem records) as (df & Hrun & Hidx & Hk & _).
  specialize (Hdraw df Hrun).
  assert (Hbody : load_data_body w (sheet_url w) (sheet_name w)
                    (cache_resource s) = (Some df, [], rc')).
  { unfold load_data_body.
    by rewrite Hconnect, (fetch_holds _ _ _ _ Hsheet), Hrun. }
  assert (Hempty : empty df = false).
  { unfold empty. apply orb_false_iff. split; apply Nat.eqb_neq.
    - rewrite Hidx. by destruct records.
    - rewrite <- (length_map fst). fold (columns df). rewrite Hk.
      assert (Hin : In c (union_keys records)) by (apply union_keys_In; eauto).
      by destruct (union_keys records). }
  exists df. rewrite (main_miss _ _ _ _ _ Hnow Hurl Hfresh Hbody).
  unfold Streamlit.bind.
  rewrite (render_data_static _ _ _ Hempty Hdraw Hauto), footer_spec.
  eexists. split; [reflexivity|].
  cbn [clock cache_data cache_resource shown].
  split; [by rewrite List.app_nil_r, <- !List.app_assoc|].
  do 2 (split; [done|]). split; [apply lookup_insert_eq|done].
Qed.

Lemma data_run_witness :
  exists df s',
    main (P := Reference.library)
      (world_of (Py.Ok (serving "u" "Sheet1" sales_sheet)) "u" "Sheet1"
                false false)
      (new_session 0) = (Some tt, s') /\
    index df = 2%nat /\
    cache_data s' !! ("u", "Sheet1") = Some (mkEntry (Some df) [] 0).
Proof.
  destruct (data_run (P := Reference.library)
              (world_of (Py.Ok (serving "u" "Sheet1" sales_sheet)) "u" "Sheet1"
                        false false)
              (new_session 0) (serving "u" "Sheet1" sales_sheet) sales_sheet
              (Some (Some (serving "u" "Sheet1" sales_sheet), [])))
    as (df & s' & Hrun & _ & Hidx & _ & Hcache & _).
  - reflexivity.
  - discriminate.
  - reflexivity.
  - reflexivity.
  - eexists _, _. repeat split; reflexivity.
  - exists [("Tanggal", PStr "2024-01-01"); ("Penjualan", PInt 5000000);
            ("Produk", PStr "Laptop")], "Tanggal".
    split; left; reflexivity.
  - intros df Hdf. vm_compute in Hdf. injection Hdf as <-. reflexivity.
  - reflexivity.
  - exists df, s'. split; [exact Hrun|]. split; [exact Hidx|exact Hcache].
Defined.

(** X14: an exception of the drawing code is caught nowhere.  When the
    loader, not answered from the cache, returns a frame with rows and
    columns for which lines 137-230 raise, the run shows the page up to
    the data tab, what those lines drew before they raised and the
    exception, and ends there: the footer is not
    shown and no countdown starts even with auto-refresh ticked, the clock
    is where it was, and the frame stays in the data cache, so that the
    runs of the next 300 seconds draw the same frame again. *)
Theorem drawing_error_ends_run `{P : Library} (w : World) (s : session)
  df es rc (e : string) :
  refresh_now w = false -> sheet_url w <> "" ->
  is_fresh s (sheet_url w) (sheet_name w) = false ->
  load_data_body w (sheet_url w) (sheet_name w) (cache_resource s)
    = (Some df, es, rc) ->
  empty df = false -> charts_and_analytics df = Py.Raise e ->
  exists s',
    main w s = (None, s') /\
    shown s' =
      shown s ++ banner ++ es ++ data_tab_page w df ++
      [ st_interrupted df; st_exception e ] /\
    clock s' = clock s /\
    cache_data s' !! (sheet_url w, sheet_name w)
      = Some (mkEntry (Some df) es (clock s)) /\
    is_fresh s' (sheet_url w) (sheet_name w) = true /\
    cache_resource s' = rc.
Proof.
  intros Hnow Hurl Hfresh Hbody Hempty Hdraw.
  rewrite (main_miss _ _ _ _ _ Hnow Hurl Hfresh Hbody).
  unfold Streamlit.bind. rewrite (render_data_raises _ _ _ _ Hempty Hdraw).
  eexists. split; [reflexivity|].
  unfold is_fresh. cbn [clock cache_data cache_resource shown].
  rewrite lookup_insert_eq. cbn [e_stored].
  split; [by rewrite <- !List.app_assoc|]. split; [done|]. split; [done|].
  split; [|done]. apply Z.ltb_lt. unfold ttl. lia.
Qed.

(** A sheet with the columns "index" and "level_0": line 151 raises. *)
Lemma drawing_error_ends_run_witness :
  exists s',
    main (P := Reference.library)
      (world_of (Py.Ok (serving "u" "Sheet1" index_sheet)) "u" "Sheet1"
                true false)
      (new_session 0) = (None, s') /\
    List.last (shown s') (time_sleep 0) =
      st_exception "cannot insert level_0, already exists" /\
    clock s' = 0.
Proof.
  destruct (drawing_error_ends_run (P := Reference.library)
              (world_of (Py.Ok (serving "u" "Sheet1" index_sheet)) "u" "Sheet1"
                        true false)
              (new_session 0)
              (mkDataFrame 1 [ ("index", SInt64 [1]); ("level_0", SInt64 [2]) ])
              []
              (Some (Some (serving "u" "Sheet1" index_sheet), []))
              "cannot insert level_0, already exists")
    as (s' & Hmain & Hshown & Hclock & _).
  - reflexivity.
  - discriminate.
  - reflexivity.
  - vm_compute. reflexivity.
  - reflexivity.
  - reflexivity.
  - exists s'. split; [exact Hmain|]. split; [|exact Hclock].
    rewrite Hshown. reflexivity.
Defined.

(** X12: the run after a click on the refresh button is a run from an
    empty data cache: whatever entry the key had, the body of the loader
    runs again and the page is drawn for what it returns now. *)
Theorem refresh_then_reload `{P : Library} (click w : World) (s : session)
  (t : Z) v es rc :
  refresh_now click = true ->
  refresh_now w = false -> sheet_url w <> "" ->
  load_data_body w (sheet_url w) (sheet_name w) (cache_resource s)
    = (v, es, rc) ->
  exists s1,
    main click s = (None, s1) /\
    main w (mkSession t (cache_data s1) (cache_resource s1) []) =
    (render w v;; footer)
      (mkSession t (<[(sheet_url w, sheet_name w) := mkEntry v es t]> ∅) rc
                 (banner ++ es)).
Proof.
  intros Hclick Hnow Hurl Hbody.
  assert (Hrun1 : main click s =
            (None, mkSession (clock s) ∅ (cache_resource s) (shown s ++ banner))).
  { unfold main, Streamlit.bind. unfold show at 1. by rewrite Hclick. }
  eexists. split; [exact Hrun1|]. cbn [cache_data cache_resource].
  by rewrite (main_miss w (mkSession t ∅ (cache_resource s) []) v es rc
                Hnow Hurl).
Qed.

Lemma refresh_then_reload_witness :
  exists s1 s2,
    main (P := Reference.library)
      (world_of (Py.Ok (serving "u" "Sheet1" [])) "u" "Sheet1" false true)
      (mkSession 10 {[ ("u", "Sheet1") := mkEntry None [] 9 ]} None [])
      = (None, s1) /\
    main (P := Reference.library)
      (world_of (Py.Ok (serving "u" "Sheet1" [])) "u" "Sheet1" false false)
      (mkSession 11 (cache_data s1) (cache_resource s1) []) = (Some tt, s2) /\
    shown s2 =
      banner ++ [ st_warning "📋 Sheet kosong atau tidak ada data" ] ++ closing.
Proof.
  destruct (refresh_then_reload (P := Reference.library)
              (world_of (Py.Ok (serving "u" "Sheet1" [])) "u" "Sheet1"
                        false true)
              (world_of (Py.Ok (serving "u" "Sheet1" [])) "u" "Sheet1"
                        false false)
              (mkSession 10 {[ ("u", "Sheet1") := mkEntry None [] 9 ]} None [])
              11 (Some (mkDataFrame 0 [])) []
              (Some (Some (serving "u" "Sheet1" []), [])))
    as (s1 & Hrun1 & Hrun2).
  - reflexivity.
  - reflexivity.
  - discriminate.
  - reflexivity.
  - exists s1. eexists. split; [exact Hrun1|]. split; [exact Hrun2|reflexivity].
Defined.

(** X13: while the entry of the key is fresh, a run does not depend on
    the service: two worlds with the same widget values give the same
    run, whatever the credentials and the sheets are, and the resource
    cache is left as it was. *)
Theorem fresh_run_ignores_service `{P : Library} (w w' : World)
  (s : session) :
  same_widgets w w' ->
  refresh_now w = false -> sheet_url w <> "" ->
  is_fresh s (sheet_url w) (sheet_name w) = true ->
  main w s = main w' s /\
  cache_resource (snd (main w s)) = cache_resource s.
Proof.
  intros Hsame Hnow Hurl Hfresh. unfold is_fresh in Hfresh.
  destruct (cache_data s !! (sheet_url w, sheet_name w)) as [e|] eqn:He;
    [|done].
  apply Z.ltb_lt in Hfresh.
  rewrite (main_hit w s e Hnow Hurl He Hfresh).
  destruct w as [a u n ar rn rows hms ymd], w' as [a' u' n' ar' rn' rows' hms' ymd'].
  destruct Hsame as (Hu & Hn & Har & Hrn & Hrows & Hhms & Hymd).
  simpl in *. subst u' n' ar' rn' rows' hms' ymd'. split.
  - rewrite (main_hit (mkWorld a' u n ar rn rows hms ymd) s e Hnow Hurl He Hfresh).
    reflexivity.
  - unfold Streamlit.bind. destruct (e_value e) as [df|].
    + destruct (empty df) eqn:Hempty.
      * by rewrite (render_empty _ _ _ Hempty), footer_spec.
      * destruct (charts_and_analytics df) as [[]|err] eqn:Hdraw.
        -- destruct ar.
           ++ by rewrite (render_data_refresh _ _ _ Hempty Hdraw).
           ++ by rewrite (render_data_static _ _ _ Hempty Hdraw), footer_spec.
        -- by rewrite (render_data_raises _ _ _ _ Hempty Hdraw).
    + by rewrite render_none, footer_spec.
Qed.

Lemma fresh_run_ignores_service_witness :
  main (P := Reference.library)
    (world_of (Py.Ok (serving "u" "Sheet1" sales_sheet)) "u" "Sheet1"
              false false)
    (mkSession 10 {[ ("u", "Sheet1") := mkEntry None [] 9 ]} None [])
  = main (P := Reference.library)
      (world_of (Py.Raise "revoked") "u" "Sheet1" false false)
      (mkSession 10 {[ ("u", "Sheet1") := mkEntry None [] 9 ]} None []).
Proof.
  apply (fresh_run_ignores_service (P := Reference.library)).
  - by repeat split.
  - reflexivity.
  - discriminate.
  - reflexivity.
Defined.

(** *** The test on the name, again *)

Lemma contains_any_case_append needle pre hay post :
  contains_any_case needle hay ->
  contains_any_case needle (pre +:+ hay +:+ post).
Proof.
  intros (a & m & b & -> & Hm). exists (pre +:+ a), m, (b +:+ post).
  split; [by rewrite !append_assoc|done].
Qed.

(** X11: the test of line 59 looks at the letters only and anywhere in
    the name: two names that differ in the case of their letters at most
    pass it or fail it together, and a name that passes it still does
    with any text put before and after it, so that a column called
    "Update" or "Candidate" is taken for a date column as "Date" is. *)
Theorem date_name_any_case_any_place (col col' pre post : string) :
  (same_letters col col' = true -> is_date_name col = is_date_name col') /\
  (is_date_name col = true -> is_date_name (pre +:+ col +:+ post) = true).
Proof.
  split.
  - intros Hsame. unfold is_date_name.
    by rewrite (same_letters_lower _ _ Hsame).
  - rewrite !is_date_name_spec. unfold date_named.
    intros [H|H]; [left|right]; by apply contains_any_case_append.
Qed.

Lemma date_name_any_case_any_place_witness :
  is_date_name "TANGGAL_Masuk" = is_date_name "tanggal_masuk" /\
  is_date_name ("Up" +:+ "DATE" +:+ "d_at") = true.
Proof.
  split.
  - apply (date_name_any_case_any_place "TANGGAL_Masuk" "tanggal_masuk" "" "").
    reflexivity.
  - apply (date_name_any_case_any_place "DATE" "DATE" "Up" "d_at"). reflexivity.
Defined.

(** *** The rows of the table *)

Lemma Series_cells_len s : length (Series_cells s) = Series_len s.
Proof. destruct s; simpl; by rewrite length_map. Qed.

Lemma Series_cells_tail n s :
  Series_cells (Series_tail n s) = skipn (Series_len s - n) (Series_cells s).
Proof. destruct s; simpl; by rewrite List.skipn_map. Qed.

(** The cells of a column that is not a datetime column are printed one by
    one, so that the last cells are printed as they are in the column. *)
Lemma Series_str_tail `{P : Library} n s :
  Series_dtype s <> datetime64 ->
  Series_str (Series_tail n s) = skipn (Series_len s - n) (Series_str s).
Proof. destruct s; simpl; try done; intros _; by rewrite List.skipn_map. Qed.

Lemma nth_skipn_add {A} (l : list A) k i d :
  List.nth i (skipn k l) d = List.nth (k + i) l d.
Proof.
  revert l. induction k as [|k IH]; intros l; [done|].
  destruct l as [|x l]; simpl; [by destruct i|]. apply IH.
Qed.

Lemma seq_add start len :
  List.seq start len = List.map (fun i => (start + i)%nat) (List.seq 0 len).
Proof.
  revert start. induction len as [|len IH]; intros start; simpl; [done|].
  rewrite Nat.add_0_r. f_equal. rewrite (IH (S start)), (IH 1%nat).
  rewrite List.map_map. apply List.map_ext. intros i. lia.
Qed.

(** X10: for a frame whose columns all have one cell per row, the table
    of [df.tail(n)] is again such a frame, with the same labels and
    [min n rows] rows; its rows are the last rows of the frame, in their
    order, cell for cell, and also as [to_csv] prints them when no column
    is a datetime column (pandas chooses the format of such a column by
    all its cells); and when the frame has at most [n] rows it is the
    frame itself. *)
Theorem tail_shows_last_rows `{P : Library} (n : nat) (df : DataFrame) :
  well_formed df ->
  well_formed (tail n df) /\
  index (tail n df) = Nat.min n (index df) /\
  columns (tail n df) = columns df /\
  rows_cells (tail n df) = skipn (index df - n) (rows_cells df) /\
  ((forall col s, In (col, s) (data df) -> Series_dtype s <> datetime64) ->
   rows_str (tail n df) = skipn (index df - n) (rows_str df)) /\
  ((index df <= n)%nat -> tail n df = df).
Proof.
  intros Hwf. unfold well_formed in Hwf. rewrite List.Forall_forall in Hwf.
  split; [|split; [done|split; [|split; [|split]]]].
  - unfold well_formed, tail. simpl. apply List.Forall_forall.
    intros [c s] Hin. apply in_map_iff in Hin as ([c0 s0] & [= <- <-] & Hin).
    simpl. specialize (Hwf _ Hin). simpl in Hwf.
    rewrite <- Series_cells_len, Series_cells_tail, List.length_skipn,
      Series_cells_len, Hwf. lia.
  - unfold columns, tail. simpl. rewrite List.map_map. by apply List.map_ext.
  - unfold rows_cells. rewrite List.skipn_map, List.skipn_seq.
    cbn [index tail].
    replace (index df - (index df - n))%nat with (Nat.min n (index df)) by lia.
    rewrite (seq_add (0 + (index df - n))), List.map_map.
    apply List.map_ext. intros i. unfold row_cells, tail. cbn [data].
    rewrite List.map_map. apply List.map_ext_in. intros [c s] Hin. simpl.
    specialize (Hwf _ Hin). simpl in Hwf.
    by rewrite Series_cells_tail, nth_skipn_add, Hwf.
  - intros Hplain. unfold rows_str. rewrite List.skipn_map, List.skipn_seq.
    cbn [index tail].
    replace (index df - (index df - n))%nat with (Nat.min n (index df)) by lia.
    rewrite (seq_add (0 + (index df - n))), List.map_map.
    apply List.map_ext. intros i. unfold row_str, tail. cbn [data].
    rewrite List.map_map. apply List.map_ext_in. intros [c s] Hin. simpl.
    pose proof (Hplain _ _ Hin) as Hs.
    specialize (Hwf _ Hin). simpl in Hwf.
    by rewrite Series_str_tail, nth_skipn_add, Hwf.
  - intros Hle. destruct df as [idx cols]. unfold tail. simpl in *.
    f_equal; [lia|]. rewrite <- (List.map_id cols) at 2.
    apply List.map_ext_in. intros [c s] Hin. simpl.
    specialize (Hwf _ Hin). simpl in Hwf. f_equal.
    destruct s; simpl in *; subst idx;
      by replace (length xs - n)%nat with 0%nat by lia.
Qed.

Lemma tail_shows_last_rows_witness :
  rows_str (P := Reference.library)
    (tail 1 (mkDataFrame 2 [ ("Penjualan", SInt64 [5000000; 7500000]) ]))
  = [ [ "7500000" ] ].
Proof.
  destruct (tail_shows_last_rows (P := Reference.library) 1
              (mkDataFrame 2 [ ("Penjualan", SInt64 [5000000; 7500000]) ]))
    as (_ & _ & _ & _ & Hrows & _).
  - repeat constructor.
  - rewrite Hrows; [reflexivity|].
    intros col s [[= <- <-]|[]]. discriminate.
Defined.
